(** * researchanalystbot.py: a shallow embedding and its properties

    The program is a Streamlit script.  Streamlit re-executes the whole
    script, top to bottom, on every user interaction; one such execution is
    modelled here as a computation in a small state-and-exception monad over
    a [World] (process environment, file system, and the log of rendered
    elements and agent calls).  The third-party libraries the script calls
    (pandas, agno, the operating system) are an explicit interface, [Host],
    whose operations may raise. *)

From Stdlib Require Import String Ascii List ZArith Lia Bool DecimalString.
From stdpp Require Import gmap strings.

Import ListNotations.
Open Scope string_scope.

(** ** Python strings

    A Python [str] is modelled by its UTF-8 encoding, a Rocq [string]. *)
Module PyStr.

Definition nl : string := String "010"%char "".

(** [sep.join(items)] *)
Definition join (sep : string) (items : list string) : string :=
  String.concat sep items.

(** [str(n)] for a non-negative [int]. *)
Definition of_nat (n : nat) : string :=
  NilEmpty.string_of_uint (Nat.to_uint n).

(** [needle in hay] *)
Fixpoint str_in (needle hay : string) : bool :=
  String.prefix needle hay ||
  match hay with
  | "" => false
  | String _ rest => str_in needle rest
  end.

(** The same as a proposition: [needle] occurs in [hay]. *)
Definition contains (needle hay : string) : Prop :=
  exists pre post, hay = pre +:+ needle +:+ post.

(** The pieces occur in [hay] one after the other, without overlap. *)
Fixpoint in_order (pieces : list string) (hay : string) : Prop :=
  match pieces with
  | [] => True
  | p :: ps => exists pre post, hay = pre +:+ p +:+ post /\ in_order ps post
  end.

(** [s.lower()] on the ASCII letters; other bytes are kept. *)
Definition lower_ascii (c : ascii) : ascii :=
  let n := nat_of_ascii c in
  if (65 <=? n)%nat && (n <=? 90)%nat then ascii_of_nat (n + 32) else c.

Fixpoint lower (s : string) : string :=
  match s with
  | "" => ""
  | String c rest => String (lower_ascii c) (lower rest)
  end.

(** UTF-8 encoding of a code point below 0x10000. *)
Definition utf8 (cp : N) : string :=
  let b := ascii_of_N in
  if (cp <? 128)%N then String (b cp) ""
  else if (cp <? 2048)%N then
    String (b (192 + cp / 64)%N) (String (b (128 + cp mod 64)%N) "")
  else
    String (b (224 + cp / 4096)%N)
      (String (b (128 + (cp / 64) mod 64)%N)
         (String (b (128 + cp mod 64)%N) "")).

(** The code points for which [str.isspace] holds (CPython's
    [_PyUnicode_IsWhitespace]). *)
Definition whitespace_codepoints : list N :=
  [9; 10; 11; 12; 13; 28; 29; 30; 31; 32; 133; 160; 5760;
   8192; 8193; 8194; 8195; 8196; 8197; 8198; 8199; 8200; 8201; 8202;
   8232; 8233; 8239; 8287; 12288]%N.

Fixpoint rev (s : string) : string :=
  match s with
  | "" => ""
  | String c rest => rev rest +:+ String c ""
  end.

(** [Some rest] when [s = p ++ rest]. *)
Fixpoint drop_prefix (p s : string) : option string :=
  match p, s with
  | "", _ => Some s
  | String a p', String b s' =>
      if Ascii.eqb a b then drop_prefix p' s' else None
  | String _ _, "" => None
  end.

Fixpoint drop_any (ps : list string) (s : string) : option string :=
  match ps with
  | [] => None
  | p :: ps' =>
      match drop_prefix p s with
      | Some r => Some r
      | None => drop_any ps' s
      end
  end.

Fixpoint drop_while (ps : list string) (fuel : nat) (s : string) : string :=
  match fuel with
  | O => s
  | S fuel' =>
      match drop_any ps s with
      | Some r => drop_while ps fuel' r
      | None => s
      end
  end.

Definition lstrip (s : string) : string :=
  drop_while (map utf8 whitespace_codepoints) (String.length s) s.

Definition rstrip (s : string) : string :=
  rev (drop_while (map (fun cp => rev (utf8 cp)) whitespace_codepoints)
         (String.length s) (rev s)).

(** [s.strip()] *)
Definition strip (s : string) : string := rstrip (lstrip s).

(** Truth value of a [str]: non-empty. *)
Definition truthy (s : string) : bool :=
  match s with "" => false | _ => true end.

End PyStr.

(** ** Exceptions and results

    Every value of [exn] is an instance of a subclass of Python's
    [Exception]; [exn_msg] is [str(e)].  The script-control exception behind
    [st.stop()] derives from [BaseException] only and is a separate outcome
    of the script monad below. *)
Record exn : Type := Exn { exn_class : string; exn_msg : string }.

Inductive result (A : Type) : Type :=
| Ok (a : A)
| Raise (e : exn).
Arguments Ok {A} a.
Arguments Raise {A} e.

(** ** The dataset: a pandas DataFrame as the script observes it *)
Inductive dtype : Type := Int64 | Float64 | BoolT | ObjectT.

(** A cell value; a float is kept as the decimal literal [mantissa * 10^exp]. *)
Inductive scalar : Type :=
| SInt (z : Z)
| SDec (mantissa exp10 : Z)
| SStr (s : string)
| SBool (b : bool).

(** [None] is a missing value (NaN / None). *)
Definition cell : Type := option scalar.

Record Column : Type := mkColumn {
  label : string;
  col_dtype : dtype;
  values : list cell
}.

(** [index_len] is the length of the row index, kept apart from the columns
    because a frame without columns still has one.  Column labels are
    strings, as [pd.read_csv] makes them from a header line. *)
Record DataFrame : Type := mkDataFrame {
  index_len : nat;
  cols : list Column
}.

Module DF.

(** [df.shape] *)
Definition shape (df : DataFrame) : nat * nat :=
  (index_len df, length (cols df)).

(** [df.empty]: some axis has length 0. *)
Definition empty (df : DataFrame) : bool :=
  (fst (shape df) =? 0)%nat || (snd (shape df) =? 0)%nat.

(** [df.columns.tolist()] *)
Definition columns (df : DataFrame) : list string :=
  map label (cols df).

(** The items of [df.dtypes], in column order. *)
Definition dtypes (df : DataFrame) : list (string * dtype) :=
  map (fun c => (label c, col_dtype c)) (cols df).

Definition isnull (v : cell) : bool :=
  match v with None => true | Some _ => false end.

(** The items of [df.isnull().sum()], in column order. *)
Definition isnull_sum (df : DataFrame) : list (string * nat) :=
  map (fun c => (label c, length (List.filter isnull (values c)))) (cols df).

(** [df.head(n)] *)
Definition head (n : nat) (df : DataFrame) : DataFrame :=
  {| index_len := Nat.min n (index_len df);
     cols := map (fun c => {| label := label c;
                              col_dtype := col_dtype c;
                              values := firstn n (values c) |}) (cols df) |}.

(** Membership of a dtype in numpy's [number] hierarchy ([bool] is not). *)
Definition is_number (t : dtype) : bool :=
  match t with
  | Int64 | Float64 => true
  | BoolT | ObjectT => false
  end.

(** [df.select_dtypes(include=['number']).columns] *)
Definition numerical_cols (df : DataFrame) : list string :=
  map label (List.filter (fun c => is_number (col_dtype c)) (cols df)).

(** All columns of a numeric dtype. *)
Definition all_numeric (df : DataFrame) : bool :=
  forallb (fun c => is_number (col_dtype c)) (cols df).

(** No two columns share a label: [pd.read_csv] renames a repeated header
    field ([a], [a.1], ...), so the frames the script handles are such. *)
Definition distinct_labels (df : DataFrame) : Prop :=
  List.NoDup (columns df).

(** [df[labels]]: for each label, the columns that carry it. *)
Definition getitem (df : DataFrame) (labels : list string) : DataFrame :=
  {| index_len := index_len df;
     cols := flat_map
               (fun l => List.filter (fun c => String.eqb (label c) l) (cols df))
               labels |}.

End DF.

(** ** The libraries the script calls

    pandas renders tables and parses CSV; what those texts look like is not
    this program's business, so the operations are an interface.  [Frame] is
    the type of the tables [describe] and [corr] return. *)
Record Pandas : Type := mkPandas {
  Frame : Type;
  describe : DataFrame -> result Frame;          (* df.describe() *)
  corr : DataFrame -> result Frame;              (* df.corr() *)
  frame_to_string : Frame -> result string;      (* .to_string() on those *)
  to_string : DataFrame -> result string;        (* df.to_string() *)
  repr_dtypes : list (string * dtype) -> string; (* repr(dict(df.dtypes)) *)
  repr_counts : list (string * nat) -> string;   (* repr(series.to_dict()) *)
  to_csv : DataFrame -> string;                  (* df.to_csv(index=False) *)
  read_csv : string -> result DataFrame          (* pd.read_csv(bytes) *)
}.

(** What pandas documents about the operations above: [describe] refuses a
    frame without columns and nothing else; [corr] works on numeric columns;
    rendering does not fail. *)
Record PandasContract (P : Pandas) : Prop := mkPandasContract {
  describe_no_columns : forall df,
    cols df = [] ->
    describe P df =
      Raise (Exn "ValueError" "Cannot describe a DataFrame without columns");
  describe_columns : forall df,
    cols df <> [] -> exists f, describe P df = Ok f;
  corr_numeric : forall df,
    DF.all_numeric df = true -> exists f, corr P df = Ok f;
  frame_to_string_total : forall f, exists s, frame_to_string P f = Ok s;
  to_string_total : forall df, exists s, to_string P df = Ok s
}.

(** ** Agents (lines 24-84): static configuration *)
Inductive tool : Type := GoogleSearchTools | HackerNewsTools.

Record Agent : Type := mkAgent {
  name : string;
  role : string;
  model : string;
  tools : list tool;
  instructions : string;
  show_tool_calls : bool;
  markdown : bool
}.

Record Team : Type := mkTeam {
  team_name : string;
  mode : string;
  team_model : string;
  members : list Agent;
  team_instructions : list string;
  team_show_tool_calls : bool;
  team_markdown : bool
}.

(** What [selected_agent] may hold: anything with a [run] method. *)
Inductive runnable : Type :=
| AnAgent (a : Agent)
| ATeam (t : Team).

Definition News_Analyst : Agent :=
  {| name := "News Analyst";
     role := "Find recent news on sustainability initiatives";
     model := "qwen/qwen3-32b";
     tools := [GoogleSearchTools];
     instructions := "Search for city-level green projects in the past year";
     show_tool_calls := true;
     markdown := true |}.

Definition Data_Analyst : Agent :=
  {| name := "Data Analyst";
     role := "Analyze uploaded CSV datasets using comprehensive data analysis";
     model := "qwen/qwen3-32b";
     tools := [];
     instructions :=
       PyStr.join PyStr.nl
         ["Analyze uploaded CSV data using the provided dataset context.";
          "    ";
          "    When analyzing data:";
          "    1. Use the comprehensive dataset information provided in the context";
          "    2. Provide detailed statistical analysis and insights";
          "    3. Identify trends, patterns, and correlations in the data";
          "    4. Detect anomalies, outliers, and data quality issues";
          "    5. Suggest actionable recommendations based on findings";
          "    6. Use markdown formatting for clear presentation with tables and lists";
          "    ";
          "    Focus on providing thorough data analysis with practical insights and recommendations."];
     show_tool_calls := true;
     markdown := true |}.

Definition Policy_Reviewer : Agent :=
  {| name := "Policy Reviewer";
     role := "Summarize government policies";
     model := "qwen/qwen3-32b";
     tools := [GoogleSearchTools];
     instructions := "Search official sites for city policy updates";
     show_tool_calls := true;
     markdown := true |}.

Definition Innovations_Scout : Agent :=
  {| name := "Innovations Scout";
     role := "Find innovative green tech ideas";
     model := "qwen/qwen3-32b";
     tools := [GoogleSearchTools; HackerNewsTools];
     instructions := "Search for “urban sustainability tech”";
     show_tool_calls := true;
     markdown := true |}.

Definition discussion_team : Team :=
  {| team_name := "Discussion Team";
     mode := "collaborate";
     team_model := "qwen/qwen3-32b";
     members := [News_Analyst; Data_Analyst; Policy_Reviewer; Innovations_Scout];
     team_instructions :=
       ["You are a discussion master. Stop when consensus is reached."];
     team_show_tool_calls := true;
     team_markdown := true |}.

(** ** The world of one script execution *)

(** What [st.file_uploader] returns when a file is present. *)
Record UploadedFile : Type := mkUploadedFile {
  file_name : string;
  file_bytes : string
}.

(** What the script renders and whom it calls, in order of occurrence. *)
Inductive event : Type :=
| StSetPageConfig (page_title page_icon : string)
| StTitle (s : string)
| StSidebarHeader (s : string)
| StSidebarRadio (caption : string) (options : list string)
| StHeader (s : string)
| StDownloadButton (caption data file mime help : string)
| StFileUploader (caption : string)
| StSuccess (s : string)
| StInfo (s : string)
| StError (s : string)
| StWarning (s : string)
| StExpander (s : string)
| StDataframe (df : DataFrame)
| StWrite (s : string)
| StTextArea (caption placeholder : string)
| StButton (caption : string)
| StSpinner (s : string)
| StMarkdown (s : string)
| AgentRun (r : runnable) (input : string).

Record World : Type := mkWorld {
  environ : gmap string string;   (* os.environ *)
  files : gmap string string;     (* path to content *)
  dirs : gset string;             (* directories created *)
  log : list event
}.

(** The operations outside the script. *)
Record Host : Type := mkHost {
  pandas : Pandas;
  (** [agent.run(text)]: [Some c] when the result is truthy and has a
      [content] attribute [c], [None] otherwise; or it raises. *)
  agent_run : runnable -> string -> result (option string);
  (** The error, if any, with which the OS refuses to create or write a path. *)
  os_fault : string -> option exn;
  (** [Path(__file__).parent] *)
  script_dir : string;
  (** The assignments of the [.env] file that [load_dotenv] finds. *)
  dotenv : gmap string string
}.

(** The five positions of the radio button, lines 153-156. *)
Inductive choice : Type :=
| Pick0 | Pick1 | Pick2 | Pick3 | Pick4.

(** The state of the widgets when the script is executed. *)
Record Inputs : Type := mkInputs {
  picked : choice;
  uploaded : option UploadedFile;
  topic_text : string;
  run_clicked : bool
}.

(** ** The script monad: state, exceptions, and [st.stop()] *)
Inductive outcome (A : Type) : Type :=
| Normal (a : A)
| Raised (e : exn)     (* an [Exception] is propagating *)
| Stopped.             (* Streamlit's [StopException], a [BaseException] *)
Arguments Normal {A} a.
Arguments Raised {A} e.
Arguments Stopped {A}.

Definition M (A : Type) : Type := World -> outcome A * World.

Definition ret {A} (a : A) : M A := fun w => (Normal a, w).

Definition bind {A B} (m : M A) (k : A -> M B) : M B :=
  fun w =>
    match m w with
    | (Normal a, w') => k a w'
    | (Raised e, w') => (Raised e, w')
    | (Stopped, w') => (Stopped, w')
    end.

Declare Scope py_scope.
Delimit Scope py_scope with py.
Notation "'let*' x ':=' m 'in' k" := (bind m (fun x => k))
  (at level 10, x name, m at level 100, k at level 200) : py_scope.
Notation "m '>>' k" := (bind m (fun _ => k))
  (at level 110, right associativity) : py_scope.
Open Scope py_scope.

Definition raise {A} (e : exn) : M A := fun w => (Raised e, w).

(** [try: body  except Exception as e: handler e].  A propagating
    [StopException] is not an [Exception] and passes through. *)
Definition try_except {A} (body : M A) (handler : exn -> M A) : M A :=
  fun w =>
    match body w with
    | (Raised e, w') => handler e w'
    | r => r
    end.

(** A library call that touches nothing of the world. *)
Definition call {A} (r : result A) : M A :=
  match r with
  | Ok a => ret a
  | Raise e => raise e
  end.

(** Any [st.*] element. *)
Definition show (e : event) : M unit :=
  fun w => (Normal tt,
            {| environ := environ w; files := files w; dirs := dirs w;
               log := log w ++ [e] |}).

(** [st.stop()] *)
Definition st_stop {A} : M A := fun w => (Stopped, w).

Section Script.

Context (H : Host).
Let P : Pandas := pandas H.

(** ** The dataset summarizer, lines 87-143 *)

(** [f"Dataset shape: {df.shape[0]} rows, {df.shape[1]} columns"] *)
Definition shape_info (df : DataFrame) : string :=
  "Dataset shape: " +:+ PyStr.of_nat (fst (DF.shape df)) +:+ " rows, "
    +:+ PyStr.of_nat (snd (DF.shape df)) +:+ " columns".

(** [f"Columns: {', '.join(df.columns.tolist())}"] *)
Definition columns_info (df : DataFrame) : string :=
  "Columns: " +:+ PyStr.join ", " (DF.columns df).

(** [f"Data types: {dict(df.dtypes)}"] *)
Definition dtypes_info (df : DataFrame) : string :=
  "Data types: " +:+ repr_dtypes P (DF.dtypes df).

(** [f"Missing values: {df.isnull().sum().to_dict()}"] *)
Definition missing_info (df : DataFrame) : string :=
  "Missing values: " +:+ repr_counts P (DF.isnull_sum df).

Definition correlation_header : string :=
  PyStr.nl +:+ "## Correlation Matrix" +:+ PyStr.nl.

Definition correlation_placeholder : string :=
  "Not enough numerical columns for correlation analysis.".

(** Lines 109-114. *)
Definition correlation_info (df : DataFrame) : M string :=
  let numerical_cols := DF.numerical_cols df in
  if (1 <? length numerical_cols)%nat then
    let* m := call (corr P (DF.getitem df numerical_cols)) in
    let* corr_matrix := call (frame_to_string P m) in
    ret (correlation_header +:+ corr_matrix)
  else
    ret (correlation_header +:+ correlation_placeholder).

(** What follows the topic in the f-string of lines 117-140. *)
Definition request_trailer : string :=
  PyStr.nl +:+ PyStr.nl
  +:+ "Please provide comprehensive insights based on this data including:" +:+ PyStr.nl
  +:+ "- Key trends and patterns" +:+ PyStr.nl
  +:+ "- Statistical relationships" +:+ PyStr.nl
  +:+ "- Data quality assessment" +:+ PyStr.nl
  +:+ "- Anomalies or outliers" +:+ PyStr.nl
  +:+ "- Actionable recommendations" +:+ PyStr.nl.

(** The f-string of lines 117-140, given the texts it interpolates. *)
Definition context_text
    (shape columns dtypes missing stats sample correlation topic : string)
    : string :=
  PyStr.nl +:+ "## Dataset Overview" +:+ PyStr.nl
  +:+ shape +:+ PyStr.nl
  +:+ columns +:+ PyStr.nl
  +:+ dtypes +:+ PyStr.nl
  +:+ missing +:+ PyStr.nl
  +:+ PyStr.nl
  +:+ "## Statistical Summary" +:+ PyStr.nl
  +:+ stats +:+ PyStr.nl
  +:+ PyStr.nl
  +:+ "## Sample Data (First 10 rows)" +:+ PyStr.nl
  +:+ sample +:+ PyStr.nl
  +:+ correlation +:+ PyStr.nl
  +:+ PyStr.nl
  +:+ "## Analysis Request" +:+ PyStr.nl
  +:+ "User wants to analyze: " +:+ topic +:+ request_trailer.

(** The body of the [try], lines 90-141. *)
Definition summary (df : DataFrame) (topic : string) : M string :=
  let* stats := call (describe P df) in
  let* sample_data := call (to_string P (DF.head 10 df)) in
  let* correlation := correlation_info df in
  let* stats_text := call (frame_to_string P stats) in
  ret (context_text (shape_info df) (columns_info df) (dtypes_info df)
         (missing_info df) stats_text sample_data correlation topic).

Definition create_data_analysis_context (df : DataFrame) (topic : string)
    : M string :=
  try_except (summary df topic)
    (fun e => ret ("Error analyzing data: " +:+ exn_msg e)).

(** ** Start-up, lines 17-22 *)

(** [load_dotenv()]: variables already set are kept. *)
Definition load_dotenv : M unit :=
  fun w => (Normal tt,
            {| environ := environ w ∪ dotenv H; files := files w;
               dirs := dirs w; log := log w |}).

(** [os.getenv(key)]: [None] is Python's [None]. *)
Definition os_getenv (key : string) : M (option string) :=
  fun w => (Normal (environ w !! key), w).

(** [os.environ[key] = value]: the value must be a [str]. *)
Definition environ_setitem (key : string) (value : option string) : M unit :=
  match value with
  | Some v =>
      fun w => (Normal tt,
                {| environ := <[key := v]> (environ w); files := files w;
                   dirs := dirs w; log := log w |})
  | None => raise (Exn "TypeError" "str expected, not NoneType")
  end.

(** [a / b] on POSIX paths. *)
Definition path_join (a b : string) : string :=
  if String.prefix "/" b then b else a +:+ "/" +:+ b.

(** [path.mkdir(..., exist_ok=True)] *)
Definition mkdir (path : string) : M unit :=
  match os_fault H path with
  | Some e => raise e
  | None =>
      fun w => (Normal tt,
                {| environ := environ w; files := files w;
                   dirs := {[path]} ∪ dirs w; log := log w |})
  end.

(** [with open(path, "wb") as f: f.write(data)] *)
Definition write_file (path data : string) : M unit :=
  match os_fault H path with
  | Some e => raise e
  | None =>
      fun w => (Normal tt,
                {| environ := environ w; files := <[path := data]> (files w);
                   dirs := dirs w; log := log w |})
  end.

(** [pd.read_csv(path, encoding='utf-8')] *)
Definition read_csv_path (path : string) : M DataFrame :=
  fun w =>
    match files w !! path with
    | Some data => call (read_csv P data) w
    | None =>
        (Raised (Exn "FileNotFoundError"
                   ("[Errno 2] No such file or directory: '" +:+ path +:+ "'")),
         w)
    end.

Definition startup : M unit :=
  load_dotenv >>
  let* key := os_getenv "GROQ_API_KEY" in
  environ_setitem "GROQ_API_KEY" key >>
  mkdir (path_join (script_dir H) "tmp").

(** ** Agent selection, lines 151-168 *)

Definition agent_options : list string :=
  ["News Analyst"; "Data Analyst"; "Policy Reviewer"; "Innovations Scout";
   "All Agents (Team)"].

Definition choice_index (c : choice) : nat :=
  match c with
  | Pick0 => 0 | Pick1 => 1 | Pick2 => 2 | Pick3 => 3 | Pick4 => 4
  end.

(** What [st.sidebar.radio] returns: the option at the picked position. *)
Definition radio_value (c : choice) : string :=
  nth (choice_index c) agent_options "".

Definition select_agent (agent_choice : string) : runnable :=
  if String.eqb agent_choice "News Analyst" then AnAgent News_Analyst
  else if String.eqb agent_choice "Data Analyst" then AnAgent Data_Analyst
  else if String.eqb agent_choice "Policy Reviewer" then AnAgent Policy_Reviewer
  else if String.eqb agent_choice "Innovations Scout" then AnAgent Innovations_Scout
  else ATeam discussion_team.

(** ** CSV upload, lines 170-232 *)

Definition dec (m e : Z) : cell := Some (SDec m e).
Definition str (s : string) : cell := Some (SStr s).

Definition sample_data : DataFrame :=
  {| index_len := 6;
     cols :=
       [ mkColumn "Date" ObjectT
           [str "2025-01-01"; str "2025-01-02"; str "2025-01-03";
            str "2025-01-01"; str "2025-01-02"; str "2025-01-03"];
         mkColumn "City" ObjectT
           [str "New York"; str "New York"; str "New York";
            str "Los Angeles"; str "Los Angeles"; str "Los Angeles"];
         mkColumn "PM2.5" Float64
           [dec 125 (-1); dec 152 (-1); dec 187 (-1);
            dec 89 (-1); dec 113 (-1); dec 146 (-1)];
         mkColumn "PM10" Float64
           [dec 253 (-1); dec 287 (-1); dec 321 (-1);
            dec 185 (-1); dec 212 (-1); dec 248 (-1)];
         mkColumn "NO2" Float64
           [dec 452 (-1); dec 489 (-1); dec 524 (-1);
            dec 387 (-1); dec 415 (-1); dec 449 (-1)];
         mkColumn "O3" Float64
           [dec 321 (-1); dec 356 (-1); dec 382 (-1);
            dec 423 (-1); dec 458 (-1); dec 481 (-1)];
         mkColumn "Temperature" Float64
           [dec 155 (-1); dec 123 (-1); dec 101 (-1);
            dec 221 (-1); dec 208 (-1); dec 192 (-1)];
         mkColumn "Humidity" Int64
           [Some (SInt 65); Some (SInt 70); Some (SInt 75);
            Some (SInt 45); Some (SInt 50); Some (SInt 55)] ] |}.

(** Lines 203-229, the body of the [try]. *)
Definition process_upload (f : UploadedFile) : M unit :=
  let temp_dir := "tmp" in
  mkdir temp_dir >>
  let temp_file_path := path_join temp_dir (file_name f) in
  write_file temp_file_path (file_bytes f) >>
  let* df := read_csv_path temp_file_path in
  if DF.empty df then
    show (StError "❌ The CSV file contains no data rows.")
  else if (snd (DF.shape df) =? 0)%nat then
    show (StError "❌ The CSV file has no columns.")
  else
    show (StSuccess ("✅ Successfully uploaded CSV with "
                     +:+ PyStr.of_nat (fst (DF.shape df)) +:+ " rows and "
                     +:+ PyStr.of_nat (snd (DF.shape df)) +:+ " columns")) >>
    show (StInfo ("📁 File saved as: " +:+ temp_file_path)) >>
    show (StExpander "📋 Data Preview") >>
    show (StDataframe (DF.head 5 df)) >>
    show (StWrite ("**Columns:** " +:+ PyStr.join ", " (DF.columns df))).

(** Lines 171-232; the result is the final value of [uploaded_file]. *)
Definition upload_section (agent_choice : string) (i : Inputs)
    : M (option UploadedFile) :=
  if String.eqb agent_choice "Data Analyst" then
    show (StHeader "📊 Data Upload") >>
    let csv_sample := to_csv P sample_data in
    show (StDownloadButton "📥 Download Sample CSV" csv_sample
            "sample_air_quality.csv" "text/csv"
            "Download a sample CSV file to test the data analysis functionality") >>
    show (StFileUploader "Upload a CSV file for analysis") >>
    let uploaded_file := uploaded i in
    match uploaded_file with
    | Some f =>
        try_except
          (process_upload f >> ret uploaded_file)
          (fun e =>
             show (StError ("❌ Error processing CSV file: " +:+ exn_msg e)) >>
             ret None)
    | None => ret uploaded_file
    end
  else ret None.

(** ** Run Research, lines 240-283 *)

(** [selected_agent.run(text)] *)
Definition run (selected_agent : runnable) (text : string)
    : M (option string) :=
  fun w =>
    let w' := {| environ := environ w; files := files w; dirs := dirs w;
                 log := log w ++ [AgentRun selected_agent text] |} in
    match agent_run H selected_agent text with
    | Ok r => (Normal r, w')
    | Raise e => (Raised e, w')
    end.

(** The f-string of lines 255-259. *)
Definition enhanced_topic (data_context topic : string) : string :=
  let indent := "                        " in
  PyStr.nl +:+ indent +:+ data_context +:+ PyStr.nl
  +:+ indent +:+ PyStr.nl
  +:+ indent
  +:+ "Please provide a comprehensive analysis of this data focusing on the user's request: "
  +:+ topic +:+ PyStr.nl
  +:+ indent.

Definition tool_tip : string :=
  "💡 Tip: This might be a tool configuration issue. Try using a different agent.".

Definition rate_tip : string :=
  "💡 Tip: Rate limit reached. Please wait a moment and try again.".

(** Lines 275-281. *)
Definition on_error (e : exn) : M unit :=
  show (StError ("Error: " +:+ exn_msg e)) >>
  if PyStr.str_in "tool call validation failed" (exn_msg e) then
    show (StInfo tool_tip)
  else if PyStr.str_in "rate limit" (PyStr.lower (exn_msg e)) then
    show (StInfo rate_tip)
  else ret tt.

(** Lines 245-273, the body of the [try]. *)
Definition dispatch (agent_choice : string) (selected_agent : runnable)
    (uploaded_file : option UploadedFile) (topic : string) : M unit :=
  let* result :=
    if String.eqb agent_choice "Data Analyst" then
      match uploaded_file with
      | Some f =>
          let* df := call (read_csv P (file_bytes f)) in
          let* data_context := create_data_analysis_context df topic in
          run selected_agent (enhanced_topic data_context topic)
      | None =>
          show (StError "❌ Please upload a CSV file first for data analysis.") >>
          st_stop
      end
    else run selected_agent topic in
  match result with
  | Some content => show (StMarkdown content)
  | None => show (StWarning "No content returned from the agent.")
  end.

Definition run_research (agent_choice : string) (selected_agent : runnable)
    (uploaded_file : option UploadedFile) (topic : string) : M unit :=
  if PyStr.truthy (PyStr.strip topic) then
    show (StSpinner ("Running " +:+ agent_choice +:+ "... please wait")) >>
    try_except (dispatch agent_choice selected_agent uploaded_file topic)
      on_error
  else show (StWarning "Please enter a topic first.").

(** ** The user interface, lines 147-283 *)
Definition ui (i : Inputs) : M unit :=
  show (StSetPageConfig "Multi-Agent Research Tool" "🤖") >>
  show (StTitle "🤖 Multi-Agent Research Discussion Tool") >>
  show (StSidebarHeader "Agent Selection") >>
  show (StSidebarRadio "Choose which agent to use:" agent_options) >>
  let agent_choice := radio_value (picked i) in
  let selected_agent := select_agent agent_choice in
  let* uploaded_file := upload_section agent_choice i in
  show (StTextArea "Enter your discussion topic:"
          "Example: What is the best way to learn to code?") >>
  let topic := topic_text i in
  show (StButton "Run Research") >>
  if run_clicked i then
    run_research agent_choice selected_agent uploaded_file topic
  else ret tt.

(** ** The whole script *)
Definition script (i : Inputs) : M unit :=
  startup >> ui i.

End Script.

(** A world in which nothing has been rendered yet. *)
Definition fresh (env : gmap string string) (fs : gmap string string)
    (ds : gset string) : World :=
  {| environ := env; files := fs; dirs := ds; log := [] |}.

(** The agents whose [run] was called in a log, in order. *)
Definition runs (l : list event) : list (runnable * string) :=
  flat_map (fun e => match e with AgentRun r t => [(r, t)] | _ => [] end) l.

(** The texts shown with [st.error], in order. *)
Definition errors (l : list event) : list string :=
  flat_map (fun e => match e with StError s => [s] | _ => [] end) l.

(** The texts shown with [st.info], in order. *)
Definition infos (l : list event) : list string :=
  flat_map (fun e => match e with StInfo s => [s] | _ => [] end) l.

(** ** pandas as documented

    The calls of the summarizer, as pandas documents them for the frames
    [pd.read_csv] returns: [DataFrame.describe] raises [ValueError] on a
    frame without columns and returns the statistics table otherwise;
    [corr], [to_string] and the reprs return.  What the tables and texts
    look like is left open: that is the [Renderer]. *)
Record Renderer : Type := mkRenderer {
  Table : Type;
  describe_table : DataFrame -> Table;              (* df.describe() *)
  corr_table : DataFrame -> Table;                  (* df.corr() *)
  table_text : Table -> string;                     (* .to_string() on those *)
  frame_text : DataFrame -> string;                 (* df.to_string() *)
  dtypes_repr : list (string * dtype) -> string;    (* repr(dict(df.dtypes)) *)
  counts_repr : list (string * nat) -> string;      (* repr(series.to_dict()) *)
  csv_text : DataFrame -> string;                   (* df.to_csv(index=False) *)
  csv_parse : string -> result DataFrame            (* pd.read_csv(bytes) *)
}.

Definition documented_pandas (R : Renderer) : Pandas :=
  {| Frame := Table R;
     describe := fun df =>
       match cols df with
       | [] => Raise (Exn "ValueError"
                        "Cannot describe a DataFrame without columns")
       | _ :: _ => Ok (describe_table R df)
       end;
     corr := fun df => Ok (corr_table R df);
     frame_to_string := fun t => Ok (table_text R t);
     to_string := fun df => Ok (frame_text R df);
     repr_dtypes := dtypes_repr R;
     repr_counts := counts_repr R;
     to_csv := csv_text R;
     read_csv := csv_parse R |}.

(** The host [H] with [P] for its pandas. *)
Definition with_pandas (H : Host) (P : Pandas) : Host :=
  {| pandas := P;
     agent_run := agent_run H;
     os_fault := os_fault H;
     script_dir := script_dir H;
     dotenv := dotenv H |}.

(** ** A plain implementation of the interface

    A small stand-in for the libraries, used to execute the model on
    concrete inputs.  Tables are rendered as one line per column; the CSV
    reader takes the first line as header, infers [Int64] for columns of
    digits only and [ObjectT] otherwise, and reads an empty field as
    missing. *)
Module Plain.

(** [s.split(sep)] for a one-character separator. *)
Fixpoint split (sep : ascii) (s : string) : list string :=
  match s with
  | "" => [""]
  | String c rest =>
      if Ascii.eqb c sep then "" :: split sep rest
      else match split sep rest with
           | [] => [String c ""]
           | x :: xs => String c x :: xs
           end
  end.

(** [s.splitlines()] on newline only. *)
Definition lines (s : string) : list string :=
  let ls := split "010"%char s in
  match List.rev ls with
  | "" :: front => List.rev front
  | _ => ls
  end.

Definition is_digit (c : ascii) : bool :=
  let n := nat_of_ascii c in (48 <=? n)%nat && (n <=? 57)%nat.

Fixpoint all_digits (s : string) : bool :=
  match s with
  | "" => true
  | String c rest => is_digit c && all_digits rest
  end.

Fixpoint digits_value (acc : Z) (s : string) : Z :=
  match s with
  | "" => acc
  | String c rest =>
      digits_value (10 * acc + Z.of_nat (nat_of_ascii c - 48)) rest
  end.

Definition is_int (s : string) : bool :=
  PyStr.truthy s && all_digits s.

Definition parse_column (lbl : string) (fields : list string) : Column :=
  if forallb is_int fields && negb (Nat.eqb (length fields) 0) then
    mkColumn lbl Int64 (map (fun f => Some (SInt (digits_value 0 f))) fields)
  else
    mkColumn lbl ObjectT
      (map (fun f => if PyStr.truthy f then Some (SStr f) else None) fields).

Definition parse_csv (data : string) : result DataFrame :=
  match lines data with
  | [] =>
      Raise (Exn "EmptyDataError" "No columns to parse from file")
  | header :: body =>
      let labels := split ","%char header in
      let records := map (split ","%char) body in
      Ok {| index_len := length body;
            cols := map (fun '(k, lbl) =>
                           parse_column lbl
                             (map (fun r => nth k r "") records))
                        (combine (seq 0 (length labels)) labels) |}
  end.

Definition dtype_name (t : dtype) : string :=
  match t with
  | Int64 => "int64" | Float64 => "float64"
  | BoolT => "bool" | ObjectT => "O"
  end.

Definition repr_dict {A} (value : A -> string) (items : list (string * A))
    : string :=
  "{" +:+ PyStr.join ", "
            (map (fun '(k, v) => "'" +:+ k +:+ "': " +:+ value v) items)
      +:+ "}".

Definition column_line (c : Column) : string :=
  label c +:+ " [" +:+ dtype_name (col_dtype c) +:+ "] "
    +:+ PyStr.of_nat (length (values c)) +:+ " values".

Definition render (df : DataFrame) : string :=
  PyStr.join PyStr.nl (map column_line (cols df)).

Definition described (df : DataFrame) : list Column :=
  match List.filter (fun c => DF.is_number (col_dtype c)) (cols df) with
  | [] => cols df
  | numeric => numeric
  end.

Definition plain_pandas : Pandas :=
  {| Frame := string;
     describe := fun df =>
       match cols df with
       | [] => Raise (Exn "ValueError"
                        "Cannot describe a DataFrame without columns")
       | _ => Ok ("count " +:+ PyStr.join " " (map label (described df)))
       end;
     corr := fun df => Ok ("corr " +:+ PyStr.join " " (DF.columns df));
     frame_to_string := fun f => Ok f;
     to_string := fun df => Ok (render df);
     repr_dtypes :=
       repr_dict (fun t => "dtype('" +:+ dtype_name t +:+ "')");
     repr_counts := repr_dict PyStr.of_nat;
     to_csv := fun df => PyStr.join "," (DF.columns df) +:+ PyStr.nl;
     read_csv := parse_csv |}.

(** A host whose agents answer [reply] and whose disk never fails. *)
Definition host (reply : result (option string)) : Host :=
  {| pandas := plain_pandas;
     agent_run := fun _ _ => reply;
     os_fault := fun _ => None;
     script_dir := "/app";
     dotenv := ∅ |}.

(** A host whose disk refuses every path with [e]. *)
Definition broken_disk_host (e : exn) : Host :=
  {| pandas := plain_pandas;
     agent_run := fun _ _ => Ok None;
     os_fault := fun _ => Some e;
     script_dir := "/app";
     dotenv := ∅ |}.

(** The renderer behind [plain_pandas]. *)
Definition plain_renderer : Renderer :=
  {| Table := string;
     describe_table := fun df =>
       "count " +:+ PyStr.join " " (map label (described df));
     corr_table := fun df => "corr " +:+ PyStr.join " " (DF.columns df);
     table_text := fun t => t;
     frame_text := render;
     dtypes_repr :=
       repr_dict (fun t => "dtype('" +:+ dtype_name t +:+ "')");
     counts_repr := repr_dict PyStr.of_nat;
     csv_text := fun df => PyStr.join "," (DF.columns df) +:+ PyStr.nl;
     csv_parse := parse_csv |}.

(** A pandas whose [df.to_string()] raises [e], and a host around it. *)
Definition brittle_pandas (e : exn) : Pandas :=
  {| Frame := string;
     describe := describe plain_pandas;
     corr := corr plain_pandas;
     frame_to_string := frame_to_string plain_pandas;
     to_string := fun _ => Raise e;
     repr_dtypes := repr_dtypes plain_pandas;
     repr_counts := repr_counts plain_pandas;
     to_csv := to_csv plain_pandas;
     read_csv := parse_csv |}.

Definition brittle_host (e : exn) (reply : result (option string)) : Host :=
  {| pandas := brittle_pandas e;
     agent_run := fun _ _ => reply;
     os_fault := fun _ => None;
     script_dir := "/app";
     dotenv := ∅ |}.

End Plain.

(** * Properties *)

(** ** Strings *)

Lemma append_cons (x : ascii) (a b : string) :
  String x a +:+ b = String x (a +:+ b).
Proof. reflexivity. Qed.

Lemma append_assoc (a b c : string) : (a +:+ b) +:+ c = a +:+ (b +:+ c).
Proof.
  induction a as [|x a IH]; [reflexivity |].
  rewrite !append_cons. now rewrite IH.
Qed.

Lemma contains_here (p x : string) : PyStr.contains p (p +:+ x).
Proof. exists "", x. reflexivity. Qed.

Lemma contains_skip (p x y : string) :
  PyStr.contains p y -> PyStr.contains p (x +:+ y).
Proof.
  intros (pre & post & ->). exists (x +:+ pre), post.
  now rewrite append_assoc.
Qed.

Lemma contains_left (p x y : string) :
  PyStr.contains p x -> PyStr.contains p (x +:+ y).
Proof.
  intros (pre & post & ->). exists pre, (post +:+ y).
  now rewrite !append_assoc.
Qed.

Lemma in_order_here (p : string) (ps : list string) (y : string) :
  PyStr.in_order ps y -> PyStr.in_order (p :: ps) (p +:+ y).
Proof. intros Hy. exists "", y. split; [reflexivity | exact Hy]. Qed.

Lemma in_order_skip (ps : list string) (x y : string) :
  PyStr.in_order ps y -> PyStr.in_order ps (x +:+ y).
Proof.
  destruct ps as [|p ps]; [trivial |].
  intros (pre & post & -> & Hpost). exists (x +:+ pre), post.
  split; [now rewrite append_assoc | exact Hpost].
Qed.

Lemma prefix_spec (p s : string) :
  String.prefix p s = true <-> exists post, s = p +:+ post.
Proof.
  revert s. induction p as [|a p IH]; intros s.
  - split; [intros _; now exists s | intros _; now destruct s].
  - destruct s as [|b s]; simpl.
    + split; [discriminate | intros (post & Hs); discriminate].
    + destruct (ascii_dec a b) as [<- | Hne].
      * rewrite IH. split; intros (post & Hs); exists post.
        -- rewrite append_cons. now rewrite Hs.
        -- rewrite append_cons in Hs. now inversion Hs.
      * split; [discriminate |].
        intros (post & Hs). rewrite append_cons in Hs.
        inversion Hs. congruence.
Qed.

(** Python's [in] on strings decides occurrence. *)
Lemma str_in_spec (needle hay : string) :
  PyStr.str_in needle hay = true <-> PyStr.contains needle hay.
Proof.
  induction hay as [|c hay IH].
  - change (PyStr.str_in needle "") with (String.prefix needle "" || false).
    rewrite orb_false_r, prefix_spec. split.
    + intros (post & Hs). exists "", post. exact Hs.
    + intros (pre & post & Hs). destruct pre; [now exists post |].
      discriminate.
  - change (PyStr.str_in needle (String c hay))
      with (String.prefix needle (String c hay) || PyStr.str_in needle hay).
    rewrite orb_true_iff, prefix_spec, IH. split.
    + intros [(post & Hs) | (pre & post & Hs)].
      * exists "", post. exact Hs.
      * exists (String c pre), post. simpl. now rewrite Hs.
    + intros (pre & post & Hs). destruct pre as [|d pre].
      * left. now exists post.
      * right. exists pre, post. now inversion Hs.
Qed.

Lemma str_in_false (needle hay : string) :
  PyStr.str_in needle hay = false <-> ~ PyStr.contains needle hay.
Proof.
  rewrite <- str_in_spec. destruct (PyStr.str_in needle hay); split;
    congruence.
Qed.

(** ** The text of the summary *)

Lemma context_text_in_order (a b c d e f g t : string) :
  PyStr.in_order [a; b; c; d; e; f; g; t] (context_text a b c d e f g t).
Proof.
  unfold context_text.
  repeat first [ apply in_order_here | apply in_order_skip ].
  exact I.
Qed.

Lemma context_text_headings (a b c d e f g t : string) :
  PyStr.contains "## Statistical Summary" (context_text a b c d e f g t) /\
  PyStr.contains t (context_text a b c d e f g t) /\
  PyStr.contains a (context_text a b c d e f g t) /\
  PyStr.contains g (context_text a b c d e f g t).
Proof.
  unfold context_text.
  repeat split;
    solve [ repeat first [ apply contains_here | apply contains_skip ] ].
Qed.

Ltac destruct_result :=
  match goal with
  | |- context [match ?x with Ok _ => _ | Raise _ => _ end] => destruct x eqn:?
  end.

Ltac destruct_if :=
  match goal with
  | |- context [if ?b then _ else _] => destruct b eqn:?
  end.

Ltac run_lib := repeat first [ destruct_result | destruct_if | progress cbn ].

Lemma plain_contract : PandasContract Plain.plain_pandas.
Proof.
  constructor; simpl.
  - intros df ->. reflexivity.
  - intros df Hne. destruct (cols df); [congruence | eauto].
  - eauto.
  - eauto.
  - eauto.
Qed.

Lemma correlation_info_frame (H : Host) (df : DataFrame) (w : World) :
  snd (correlation_info H df w) = w /\ fst (correlation_info H df w) <> Stopped.
Proof.
  unfold correlation_info, bind, call, ret, raise.
  run_lib; split; congruence.
Qed.

Lemma summary_frame (H : Host) (df : DataFrame) (topic : string) (w : World) :
  snd (summary H df topic w) = w /\ fst (summary H df topic w) <> Stopped.
Proof.
  unfold summary, correlation_info, bind, call, ret, raise.
  run_lib; split; congruence.
Qed.

(** The [try]/[except] of lines 89-143, by the outcome of its body. *)
Lemma create_data_analysis_context_cases
    (H : Host) (df : DataFrame) (topic : string) (w : World) :
  create_data_analysis_context H df topic w =
    match fst (summary H df topic w) with
    | Normal t => (Normal t, w)
    | Raised e => (Normal ("Error analyzing data: " +:+ exn_msg e), w)
    | Stopped => (Stopped, w)
    end.
Proof.
  unfold create_data_analysis_context, try_except.
  destruct (summary_frame H df topic w) as [Hw _].
  destruct (summary H df topic w) as [[t | e |] w']; simpl in *; now subst.
Qed.

(** ** Claim C4 *)

(** C4: whatever the libraries do, [create_data_analysis_context] returns a
    string and leaves the world alone; when its body raises [e], that string
    is ["Error analyzing data: "] followed by [str(e)], and otherwise it is
    the body's result. *)
Theorem summarizer_catches_every_exception
    (H : Host) (df : DataFrame) (topic : string) (w : World) :
  exists text,
    create_data_analysis_context H df topic w = (Normal text, w) /\
    (forall e w', summary H df topic w = (Raised e, w') ->
       text = "Error analyzing data: " +:+ exn_msg e) /\
    (forall t w', summary H df topic w = (Normal t, w') -> text = t).
Proof.
  rewrite create_data_analysis_context_cases.
  destruct (summary_frame H df topic w) as [_ Hs].
  destruct (summary H df topic w) as [[t | e |] w']; simpl in *.
  - exists t. repeat split; congruence.
  - exists ("Error analyzing data: " +:+ exn_msg e).
    repeat split; congruence.
  - congruence.
Qed.

(** ** The summarizer under pandas' contract *)

Lemma numerical_cols_some (df : DataFrame) :
  (1 <= length (DF.numerical_cols df))%nat -> cols df <> [].
Proof.
  unfold DF.numerical_cols. destruct (cols df); simpl; [lia | congruence].
Qed.

(** With distinct labels, selecting the numeric labels selects numeric
    columns only. *)
Lemma label_determines_column (l : list Column) (c d : Column) :
  List.NoDup (map label l) -> In c l -> In d l -> label c = label d -> c = d.
Proof.
  induction l as [|x l IH]; simpl; [tauto |].
  intros Hnd Hc Hd Heq. inversion Hnd as [|? ? Hx Hl]; subst.
  destruct Hc as [-> | Hc], Hd as [-> | Hd]; auto.
  - exfalso. apply Hx. rewrite Heq. now apply in_map.
  - exfalso. apply Hx. rewrite <- Heq. now apply in_map.
Qed.

Lemma getitem_numerical_cols_numeric (df : DataFrame) :
  DF.distinct_labels df ->
  DF.all_numeric (DF.getitem df (DF.numerical_cols df)) = true.
Proof.
  intros Hnd. unfold DF.all_numeric, DF.getitem, DF.numerical_cols. cbn [cols].
  apply forallb_forall. intros c Hc.
  apply in_flat_map in Hc as (l & Hl & Hc).
  apply in_map_iff in Hl as (d & <- & Hd).
  apply filter_In in Hd as [Hd Hnum].
  apply filter_In in Hc as [Hc Heq]. apply String.eqb_eq in Heq.
  now rewrite (label_determines_column (cols df) c d Hnd Hc Hd Heq).
Qed.

Lemma correlation_info_ok (H : Host) (df : DataFrame) (w : World) :
  PandasContract (pandas H) ->
  DF.distinct_labels df ->
  exists section,
    correlation_info H df w = (Normal section, w) /\
    ((2 <= length (DF.numerical_cols df))%nat ->
       exists m matrix,
         corr (pandas H) (DF.getitem df (DF.numerical_cols df)) = Ok m /\
         frame_to_string (pandas H) m = Ok matrix /\
         section = correlation_header +:+ matrix) /\
    ((length (DF.numerical_cols df) < 2)%nat ->
       section = correlation_header +:+ correlation_placeholder).
Proof.
  intros HC Hnd. unfold correlation_info. cbv zeta.
  destruct (1 <? length (DF.numerical_cols df))%nat eqn:Hn.
  - apply Nat.ltb_lt in Hn.
    destruct (corr_numeric _ HC (DF.getitem df (DF.numerical_cols df))
                (getitem_numerical_cols_numeric df Hnd))
      as [m Hm].
    destruct (frame_to_string_total _ HC m) as [matrix Hmatrix].
    unfold bind, call, ret. rewrite Hm, Hmatrix.
    eexists. split; [reflexivity |]. split.
    + intros _. now exists m, matrix.
    + lia.
  - apply Nat.ltb_ge in Hn. eexists. split; [reflexivity |]. split.
    + lia.
    + reflexivity.
Qed.

Lemma summary_ok (H : Host) (df : DataFrame) (topic : string) (w : World) :
  PandasContract (pandas H) ->
  DF.distinct_labels df ->
  cols df <> [] ->
  exists f stats sample section,
    describe (pandas H) df = Ok f /\
    frame_to_string (pandas H) f = Ok stats /\
    to_string (pandas H) (DF.head 10 df) = Ok sample /\
    correlation_info H df w = (Normal section, w) /\
    create_data_analysis_context H df topic w =
      (Normal (context_text (shape_info df) (columns_info df)
                 (dtypes_info H df) (missing_info H df)
                 stats sample section topic), w).
Proof.
  intros HC Hnd Hcols.
  destruct (describe_columns _ HC df Hcols) as [f Hf].
  destruct (frame_to_string_total _ HC f) as [stats Hstats].
  destruct (to_string_total _ HC (DF.head 10 df)) as [sample Hsample].
  destruct (correlation_info_ok H df w HC Hnd) as (section & Hsection & _).
  exists f, stats, sample, section. repeat split; try assumption.
  unfold create_data_analysis_context, try_except, summary, bind, call, ret.
  cbn. rewrite Hf, Hsample, Hsection, Hstats. reflexivity.
Qed.

Lemma no_columns_is_an_error
    (H : Host) (df : DataFrame) (topic : string) (w : World) :
  PandasContract (pandas H) ->
  cols df = [] ->
  create_data_analysis_context H df topic w =
    (Normal "Error analyzing data: Cannot describe a DataFrame without columns",
     w).
Proof.
  intros HC Hcols.
  unfold create_data_analysis_context, try_except, summary, bind, call, raise.
  cbn. rewrite (describe_no_columns _ HC df Hcols). reflexivity.
Qed.

Lemma contains_trans (a b c : string) :
  PyStr.contains a b -> PyStr.contains b c -> PyStr.contains a c.
Proof.
  intros (p1 & q1 & ->) (p2 & q2 & ->).
  exists (p2 +:+ p1), (q1 +:+ q2). now rewrite !append_assoc.
Qed.

Lemma shape_info_prefix (df : DataFrame) :
  PyStr.contains "Dataset shape:" (shape_info df).
Proof. exists "". eexists. unfold shape_info. reflexivity. Qed.

(** ** The summarizer over pandas as documented *)

Lemma documented_contract (R : Renderer) :
  PandasContract (documented_pandas R).
Proof.
  constructor; cbn.
  - intros df ->. reflexivity.
  - intros df Hne. destruct (cols df); [congruence | eauto].
  - eauto.
  - eauto.
  - eauto.
Qed.

Lemma documented_correlation_info
    (R : Renderer) (H : Host) (df : DataFrame) (w : World) :
  correlation_info (with_pandas H (documented_pandas R)) df w =
    (Normal
       (PyStr.nl +:+ "## Correlation Matrix" +:+ PyStr.nl
        +:+ (if (1 <? length (DF.numerical_cols df))%nat
             then table_text R
                    (corr_table R (DF.getitem df (DF.numerical_cols df)))
             else "Not enough numerical columns for correlation analysis.")),
     w).
Proof.
  unfold correlation_info. cbv zeta.
  destruct (1 <? length (DF.numerical_cols df))%nat; reflexivity.
Qed.

Lemma documented_summary
    (R : Renderer) (H : Host) (df : DataFrame) (topic : string) (w : World) :
  cols df <> [] ->
  create_data_analysis_context (with_pandas H (documented_pandas R)) df topic w
  = (Normal
       (context_text
          ("Dataset shape: " +:+ PyStr.of_nat (index_len df) +:+ " rows, "
           +:+ PyStr.of_nat (length (cols df)) +:+ " columns")
          ("Columns: " +:+ PyStr.join ", " (map label (cols df)))
          ("Data types: "
           +:+ dtypes_repr R (map (fun c => (label c, col_dtype c)) (cols df)))
          ("Missing values: "
           +:+ counts_repr R
                 (map (fun c =>
                         (label c, length (List.filter DF.isnull (values c))))
                    (cols df)))
          (table_text R (describe_table R df))
          (frame_text R (DF.head 10 df))
          (PyStr.nl +:+ "## Correlation Matrix" +:+ PyStr.nl
           +:+ (if (1 <? length (DF.numerical_cols df))%nat
                then table_text R
                       (corr_table R (DF.getitem df (DF.numerical_cols df)))
                else "Not enough numerical columns for correlation analysis."))
          topic),
     w).
Proof.
  intros Hcols.
  assert (Hd : describe (documented_pandas R) df = Ok (describe_table R df)).
  { cbn. destruct (cols df); [congruence | reflexivity]. }
  unfold create_data_analysis_context, try_except, summary, bind.
  change (pandas (with_pandas H (documented_pandas R)))
    with (documented_pandas R).
  rewrite Hd. cbn [call ret to_string documented_pandas].
  rewrite documented_correlation_info. reflexivity.
Qed.

(** Where the f-string of lines 117-140 puts the correlation section:
    between the sample and the request. *)
Lemma context_text_section_place (a b c d e f g t : string) :
  exists before after,
    context_text a b c d e f g t =
      before +:+ f +:+ PyStr.nl +:+ g +:+ PyStr.nl +:+ PyStr.nl
      +:+ "## Analysis Request" +:+ after.
Proof.
  exists (PyStr.nl +:+ "## Dataset Overview" +:+ PyStr.nl
          +:+ a +:+ PyStr.nl +:+ b +:+ PyStr.nl +:+ c +:+ PyStr.nl
          +:+ d +:+ PyStr.nl +:+ PyStr.nl
          +:+ "## Statistical Summary" +:+ PyStr.nl
          +:+ e +:+ PyStr.nl +:+ PyStr.nl
          +:+ "## Sample Data (First 10 rows)" +:+ PyStr.nl),
         (PyStr.nl +:+ "User wants to analyze: " +:+ t +:+ request_trailer).
  unfold context_text. now rewrite !append_assoc.
Qed.

(** ** Claim C1 *)

(** C1: for every dataset with at least one row and at least one numeric
    column, and any topic, [create_data_analysis_context] returns a text in
    which occur, in this order: the line with the row and column counts,
    the list of column names, the declared type of each column, the count
    of missing values of each column, the rendered table of [describe], the
    first ten rows rendered as text, the correlation section (the matrix of
    the numeric columns when there are two or more, the placeholder
    sentence otherwise) and the topic; the text contains "Dataset shape:",
    "Statistical Summary" and the topic. *)
Theorem summary_has_all_sections_in_order
    (R : Renderer) (H : Host) (df : DataFrame) (topic : string) (w : World) :
  (1 <= index_len df)%nat ->
  (1 <= length (DF.numerical_cols df))%nat ->
  exists text,
    create_data_analysis_context (with_pandas H (documented_pandas R))
      df topic w = (Normal text, w) /\
    PyStr.in_order
      ["Dataset shape: " +:+ PyStr.of_nat (index_len df) +:+ " rows, "
         +:+ PyStr.of_nat (length (cols df)) +:+ " columns";
       "Columns: " +:+ PyStr.join ", " (map label (cols df));
       "Data types: "
         +:+ dtypes_repr R (map (fun c => (label c, col_dtype c)) (cols df));
       "Missing values: "
         +:+ counts_repr R
               (map (fun c =>
                       (label c, length (List.filter DF.isnull (values c))))
                  (cols df));
       table_text R (describe_table R df);
       frame_text R (DF.head 10 df);
       PyStr.nl +:+ "## Correlation Matrix" +:+ PyStr.nl
         +:+ (if (1 <? length (DF.numerical_cols df))%nat
              then table_text R
                     (corr_table R (DF.getitem df (DF.numerical_cols df)))
              else "Not enough numerical columns for correlation analysis.");
       topic] text /\
    PyStr.contains "Dataset shape:" text /\
    PyStr.contains "Statistical Summary" text /\
    PyStr.contains topic text.
Proof.
  intros _ Hnum.
  rewrite (documented_summary R H df topic w (numerical_cols_some df Hnum)).
  eexists. split; [reflexivity |].
  split; [apply context_text_in_order |].
  split; [| split].
  - refine (contains_trans _ _ _ _
              (proj1 (proj2 (proj2 (context_text_headings _ _ _ _ _ _ _ _))))).
    now eexists "", _.
  - apply (contains_trans _ "## Statistical Summary").
    + now exists "## ", "".
    + apply context_text_headings.
  - apply context_text_headings.
Qed.

Lemma sample_data_distinct_labels : DF.distinct_labels sample_data.
Proof.
  unfold DF.distinct_labels. cbn.
  repeat (constructor; [cbn; intuition discriminate |]). constructor.
Qed.

Lemma summary_has_all_sections_in_order_witness :
  let R := Plain.plain_renderer in
  let H := with_pandas (Plain.host (Ok None)) (documented_pandas R) in
  let df := sample_data in
  let w := fresh ∅ ∅ ∅ in
  (1 <= index_len df)%nat /\
  (1 <= length (DF.numerical_cols df))%nat /\
  exists text,
    create_data_analysis_context H df "air quality" w = (Normal text, w) /\
    PyStr.in_order
      ["Dataset shape: 6 rows, 8 columns";
       "Columns: Date, City, PM2.5, PM10, NO2, O3, Temperature, Humidity";
       "Data types: "
         +:+ dtypes_repr R (map (fun c => (label c, col_dtype c)) (cols df));
       "Missing values: "
         +:+ counts_repr R
               (map (fun c =>
                       (label c, length (List.filter DF.isnull (values c))))
                  (cols df));
       table_text R (describe_table R df);
       frame_text R (DF.head 10 df);
       PyStr.nl +:+ "## Correlation Matrix" +:+ PyStr.nl
         +:+ table_text R
               (corr_table R (DF.getitem df (DF.numerical_cols df)));
       "air quality"] text /\
    PyStr.contains "Dataset shape:" text /\
    PyStr.contains "Statistical Summary" text /\
    PyStr.contains "air quality" text.
Proof.
  assert (H1 : (1 <= index_len sample_data)%nat) by (simpl; lia).
  assert (H2 : (1 <= length (DF.numerical_cols sample_data))%nat)
    by (simpl; lia).
  split; [exact H1 |]. split; [exact H2 |].
  exact (summary_has_all_sections_in_order Plain.plain_renderer
           (Plain.host (Ok None)) sample_data "air quality" (fresh ∅ ∅ ∅)
           H1 H2).
Defined.

(** ** Claim C2 *)

(** Outside the frames [pd.read_csv] returns: on a frame without columns
    [describe] raises, and the summarizer's answer is the error text, which
    carries no correlation section. *)
Lemma no_columns_no_correlation_section :
  let df := {| index_len := 3; cols := [] |} in
  let w := fresh ∅ ∅ ∅ in
  let out :=
    "Error analyzing data: Cannot describe a DataFrame without columns" in
  length (DF.numerical_cols df) = 0%nat /\
  create_data_analysis_context (Plain.host (Ok None)) df "pollution" w
    = (Normal out, w) /\
  PyStr.str_in "Correlation Matrix" out = false /\
  PyStr.str_in correlation_placeholder out = false.
Proof. repeat split. Qed.

(** C2: for every dataset, the correlation section that
    [create_data_analysis_context] builds (lines 109-114) is the heading
    followed by the rendered correlation matrix of the numeric columns when
    the dataset has two or more numeric columns, and the heading followed by
    the fixed placeholder sentence when it has one or none; and the section
    is never omitted: in the text returned for a dataset (a frame with
    columns, as [pd.read_csv] returns) it stands between the sample and the
    request. *)
Theorem correlation_section_by_numeric_columns
    (R : Renderer) (H : Host) (df : DataFrame) (topic : string) (w : World) :
  exists section,
    correlation_info (with_pandas H (documented_pandas R)) df w
      = (Normal section, w) /\
    ((2 <= length (DF.numerical_cols df))%nat ->
     section =
       PyStr.nl +:+ "## Correlation Matrix" +:+ PyStr.nl
       +:+ table_text R (corr_table R (DF.getitem df (DF.numerical_cols df)))) /\
    ((length (DF.numerical_cols df) < 2)%nat ->
     section =
       PyStr.nl +:+ "## Correlation Matrix" +:+ PyStr.nl
       +:+ "Not enough numerical columns for correlation analysis.") /\
    (cols df <> [] ->
     exists before after,
       create_data_analysis_context (with_pandas H (documented_pandas R))
         df topic w
       = (Normal
            (before +:+ frame_text R (DF.head 10 df) +:+ PyStr.nl
             +:+ section +:+ PyStr.nl +:+ PyStr.nl
             +:+ "## Analysis Request" +:+ after),
          w)).
Proof.
  eexists. split; [apply documented_correlation_info |].
  split; [| split].
  - intros Hn.
    assert (E : (1 <? length (DF.numerical_cols df))%nat = true)
      by (apply Nat.ltb_lt; lia).
    now rewrite E.
  - intros Hn.
    assert (E : (1 <? length (DF.numerical_cols df))%nat = false)
      by (apply Nat.ltb_ge; lia).
    now rewrite E.
  - intros Hcols. rewrite (documented_summary R H df topic w Hcols).
    match goal with
    | |- context [context_text ?a ?b ?c ?d ?e ?f ?g ?t] =>
        destruct (context_text_section_place a b c d e f g t)
          as (before & after & ->)
    end.
    now exists before, after.
Qed.

Lemma correlation_section_by_numeric_columns_witness :
  let R := Plain.plain_renderer in
  let H := with_pandas (Plain.host (Ok None)) (documented_pandas R) in
  let w := fresh ∅ ∅ ∅ in
  let one_numeric :=
    {| index_len := 2;
       cols := [mkColumn "city" ObjectT [str "Oslo"; str "Rome"];
                mkColumn "pm10" Int64 [Some (SInt 18); None]] |} in
  let claim := fun df topic =>
    exists section,
      correlation_info H df w = (Normal section, w) /\
      ((2 <= length (DF.numerical_cols df))%nat ->
       section =
         PyStr.nl +:+ "## Correlation Matrix" +:+ PyStr.nl
         +:+ table_text R
               (corr_table R (DF.getitem df (DF.numerical_cols df)))) /\
      ((length (DF.numerical_cols df) < 2)%nat ->
       section =
         PyStr.nl +:+ "## Correlation Matrix" +:+ PyStr.nl
         +:+ "Not enough numerical columns for correlation analysis.") /\
      (cols df <> [] ->
       exists before after,
         create_data_analysis_context H df topic w
         = (Normal
              (before +:+ frame_text R (DF.head 10 df) +:+ PyStr.nl
               +:+ section +:+ PyStr.nl +:+ PyStr.nl
               +:+ "## Analysis Request" +:+ after),
            w)) in
  (2 <= length (DF.numerical_cols sample_data))%nat /\
  (length (DF.numerical_cols one_numeric) < 2)%nat /\
  claim sample_data "air quality" /\
  claim one_numeric "pollution".
Proof.
  split; [cbn; lia |]. split; [cbn; lia |]. split.
  - exact (correlation_section_by_numeric_columns Plain.plain_renderer
             (Plain.host (Ok None)) sample_data "air quality" (fresh ∅ ∅ ∅)).
  - exact (correlation_section_by_numeric_columns Plain.plain_renderer
             (Plain.host (Ok None)) _ "pollution" (fresh ∅ ∅ ∅)).
Defined.

(** ** The summarizer and the world *)

Lemma summary_world_independent
    (H : Host) (df : DataFrame) (topic : string) (w1 w2 : World) :
  fst (summary H df topic w1) = fst (summary H df topic w2).
Proof.
  unfold summary, correlation_info, bind, call, ret, raise.
  run_lib; reflexivity.
Qed.

(** The summarizer's answer does not depend on the world it runs in, and it
    leaves that world as it found it: its body is library calls on the
    frame and string formatting only. *)
Theorem summarizer_is_pure
    (H : Host) (df : DataFrame) (topic : string) (w1 w2 : World) :
  exists text,
    create_data_analysis_context H df topic w1 = (Normal text, w1) /\
    create_data_analysis_context H df topic w2 = (Normal text, w2).
Proof.
  rewrite !create_data_analysis_context_cases.
  rewrite (summary_world_independent H df topic w1 w2).
  destruct (summary_frame H df topic w2) as [_ Hs].
  destruct (fst (summary H df topic w2)) as [t | e |].
  - now exists t.
  - now exists ("Error analyzing data: " +:+ exn_msg e).
  - congruence.
Qed.

(** ** Executing the script symbolically *)

#[local] Arguments PyStr.strip : simpl never.
#[local] Arguments PyStr.str_in : simpl never.
#[local] Arguments PyStr.lower : simpl never.
#[local] Arguments PyStr.truthy : simpl never.
#[local] Arguments PyStr.of_nat : simpl never.
#[local] Arguments PyStr.join : simpl never.
#[local] Arguments DF.empty : simpl never.
#[local] Arguments DF.shape : simpl never.
#[local] Arguments DF.head : simpl never.
#[local] Arguments DF.columns : simpl never.
#[local] Arguments summary : simpl never.
#[local] Arguments create_data_analysis_context : simpl never.
#[local] Arguments enhanced_topic : simpl never.
#[local] Arguments sample_data : simpl never.
#[local] Arguments path_join : simpl never.
#[local] Arguments tool_tip : simpl never.
#[local] Arguments rate_tip : simpl never.

Ltac exec_step :=
  first
    [ progress cbn
    | match goal with
      | E : ?x = _ |- context [match ?x with _ => _ end] => rewrite E
      | E : ?x = _ |- context [if ?x then _ else _] => rewrite E
      | E : forall w, create_data_analysis_context ?h ?d ?t w = _
        |- context [create_data_analysis_context ?h ?d ?t _] => rewrite E
      | |- context [match os_fault ?h ?p with _ => _ end] =>
          destruct (os_fault h p) eqn:?
      | |- context [match read_csv ?P ?b with _ => _ end] =>
          destruct (read_csv P b) eqn:?
      | |- context [match agent_run ?h ?r ?t with _ => _ end] =>
          destruct (agent_run h r t) as [[?|]|?] eqn:?
      | |- context [match fst (summary ?h ?d ?t ?w) with _ => _ end] =>
          destruct (fst (summary h d t w)) eqn:?
      | |- context [match uploaded ?i with _ => _ end] =>
          destruct (uploaded i) eqn:?
      | |- context [if ?b then _ else _] => destruct b eqn:?
      end
    | rewrite lookup_insert_eq
    | rewrite create_data_analysis_context_cases ].

Ltac exec :=
  unfold upload_section, process_upload, run_research, dispatch, on_error,
    run, mkdir, write_file, read_csv_path, try_except, bind, call, show, ret,
    raise, st_stop;
  repeat exec_step.

Lemma runs_app (l1 l2 : list event) :
  runs (l1 ++ l2) = (runs l1 ++ runs l2)%list.
Proof. apply flat_map_app. Qed.

(** The upload section never fails and calls no agent. *)
Lemma upload_section_spec (H : Host) (agent_choice : string) (i : Inputs)
    (w : World) :
  exists uploaded_file us w',
    upload_section H agent_choice i w = (Normal uploaded_file, w') /\
    log w' = (log w ++ us)%list /\
    runs us = [].
Proof.
  exec.
  all: do 2 eexists; eexists; split; [reflexivity |]; cbn [log].
  all: rewrite <- ?app_assoc; cbn [app].
  all: try (split; [reflexivity | reflexivity]).
  all: split; [symmetry; apply app_nil_r | reflexivity].
Qed.

(** Run Research never lets an exception out and calls at most the selected
    agent, once. *)
Lemma run_research_spec (H : Host) (agent_choice : string)
    (selected_agent : runnable) (uploaded_file : option UploadedFile)
    (topic : string) (w : World) :
  exists o w',
    run_research H agent_choice selected_agent uploaded_file topic w = (o, w') /\
    (forall e, o <> Raised e) /\
    (runs (log w') = runs (log w) \/
     exists text, runs (log w') = (runs (log w) ++ [(selected_agent, text)])%list).
Proof.
  exec.
  all: try destruct uploaded_file; repeat exec_step.
  all: eexists; eexists; split; [reflexivity |].
  all: split; [congruence |]; cbn [log].
  all: rewrite ?runs_app; cbn [runs flat_map app]; rewrite <- ?app_assoc;
    cbn [app]; rewrite ?app_nil_r.
  all: first [ left; reflexivity | right; eexists; reflexivity ].
Qed.

Lemma startup_spec (H : Host) (w : World) :
  exists o w', startup H w = (o, w') /\ log w' = log w /\ o <> Stopped.
Proof.
  unfold startup, load_dotenv, os_getenv, environ_setitem, mkdir, bind, raise.
  cbn.
  destruct ((environ w ∪ dotenv H) !! "GROQ_API_KEY"); cbn;
    [destruct (os_fault H (path_join (script_dir H) "tmp")); cbn |];
    eexists; eexists; (split; [reflexivity |]); split;
    solve [reflexivity | congruence].
Qed.

Lemma ui_runs (H : Host) (i : Inputs) (w : World) :
  runs (log (snd (ui H i w))) = runs (log w) \/
  exists text,
    runs (log (snd (ui H i w))) =
      (runs (log w) ++ [(select_agent (radio_value (picked i)), text)])%list.
Proof.
  unfold ui, bind, show, ret. cbn.
  match goal with
  | |- context [upload_section ?h ?a ?j ?v] =>
      destruct (upload_section_spec h a j v)
        as (uf & us & w1 & Hu & Hlog & Hus)
  end.
  rewrite Hu. cbn.
  assert (Hw1 : runs (log w1) = runs (log w)).
  { rewrite Hlog. cbn [log]. rewrite !runs_app, Hus. cbn.
    now rewrite !app_nil_r. }
  destruct (run_clicked i).
  - match goal with
    | |- context [run_research ?h ?a ?s ?u ?t ?v] =>
        destruct (run_research_spec h a s u t v)
          as (o & w2 & Hr & _ & Hruns)
    end.
    rewrite Hr. cbn [snd]. cbn [log] in Hruns.
    rewrite !runs_app, Hw1 in Hruns. cbn in Hruns.
    rewrite !app_nil_r in Hruns.
    destruct Hruns as [Hruns | (text & Hruns)];
      [left | right; exists text]; exact Hruns.
  - left. cbn [snd log]. rewrite !runs_app, Hw1. cbn.
    now rewrite !app_nil_r.
Qed.

Lemma script_runs (H : Host) (i : Inputs) (w : World) :
  runs (log (snd (script H i w))) = runs (log w) \/
  exists text,
    runs (log (snd (script H i w))) =
      (runs (log w) ++ [(select_agent (radio_value (picked i)), text)])%list.
Proof.
  unfold script, bind.
  destruct (startup_spec H w) as (o & w' & Hs & Hlog & _).
  rewrite Hs. destruct o; cbn [snd].
  - rewrite <- Hlog. apply ui_runs.
  - left. now rewrite Hlog.
  - left. now rewrite Hlog.
Qed.

(** The summarizer's answer does not depend on the world it runs in. *)
Lemma create_data_analysis_context_total
    (H : Host) (df : DataFrame) (topic : string) :
  exists text, forall w,
    create_data_analysis_context H df topic w = (Normal text, w).
Proof.
  pose (w0 := fresh ∅ ∅ ∅).
  destruct (summary_frame H df topic w0) as [_ Hs].
  destruct (fst (summary H df topic w0)) as [t | e |] eqn:Hfst;
    [exists t | exists ("Error analyzing data: " +:+ exn_msg e) | congruence];
    intros w; rewrite create_data_analysis_context_cases;
    rewrite (summary_world_independent H df topic w w0); fold w0;
    now rewrite Hfst.
Qed.

(** With the Data Analyst picked, a file that is saved and parsed is
    summarized and sent to the Data Analyst, whatever the frame looks like. *)
Lemma data_analyst_dispatch (H : Host) (f : UploadedFile) (df : DataFrame)
    (topic : string) (env fs : gmap string string) (ds : gset string) :
  os_fault H "tmp" = None ->
  os_fault H (path_join "tmp" (file_name f)) = None ->
  read_csv (pandas H) (file_bytes f) = Ok df ->
  PyStr.truthy (PyStr.strip topic) = true ->
  exists data_context,
    (forall w, create_data_analysis_context H df topic w
               = (Normal data_context, w)) /\
    runs (log (snd (ui H (mkInputs Pick1 (Some f) topic true)
                      (fresh env fs ds))))
      = [(AnAgent Data_Analyst, enhanced_topic data_context topic)] /\
    (DF.empty df = true ->
     In (StError "❌ The CSV file contains no data rows.")
        (log (snd (ui H (mkInputs Pick1 (Some f) topic true)
                     (fresh env fs ds))))).
Proof.
  intros Htmp Hpath Hcsv Htopic.
  destruct (create_data_analysis_context_total H df topic) as [ctx Hctx].
  exists ctx. split; [exact Hctx |].
  unfold ui, fresh. exec.
  all: split; [reflexivity |]; intros Hempty; try congruence.
  all: cbn; tauto.
Qed.

(** Any choice but the Data Analyst sends the topic, as typed, to the
    selected agent. *)
Lemma plain_dispatch (H : Host) (i : Inputs) (w : World) :
  picked i <> Pick1 ->
  run_clicked i = true ->
  PyStr.truthy (PyStr.strip (topic_text i)) = true ->
  runs (log (snd (ui H i w))) =
    (runs (log w) ++ [(select_agent (radio_value (picked i)), topic_text i)])%list.
Proof.
  destruct i as [c uf topic clicked]. cbn [picked run_clicked topic_text].
  intros Hc -> Htopic.
  destruct c; try congruence; unfold ui; exec.
  all: rewrite !runs_app; cbn; now rewrite !app_nil_r.
Qed.

(** ** Claim C6 *)

(** C6: the radio has exactly the five options of the source; each of the
    four individual options selects the agent whose name is that option, the
    fifth selects the team; in every execution of the script the only [run]
    that can be called is that of the selected agent or team, at most once;
    and a click with a topic, for any option but the Data Analyst (whose
    dispatch also needs the upload), does call it on the topic. *)
Theorem agent_choice_dispatches_its_agent (H : Host) (i : Inputs) (w : World) :
  map radio_value [Pick0; Pick1; Pick2; Pick3; Pick4] = agent_options /\
  select_agent (radio_value (picked i)) =
    match picked i with
    | Pick0 => AnAgent News_Analyst
    | Pick1 => AnAgent Data_Analyst
    | Pick2 => AnAgent Policy_Reviewer
    | Pick3 => AnAgent Innovations_Scout
    | Pick4 => ATeam discussion_team
    end /\
  match select_agent (radio_value (picked i)) with
  | AnAgent a => name a = radio_value (picked i)
  | ATeam t => radio_value (picked i) = "All Agents (Team)"
  end /\
  (runs (log (snd (script H i w))) = runs (log w) \/
   exists text,
     runs (log (snd (script H i w))) =
       (runs (log w)
        ++ [(select_agent (radio_value (picked i)), text)])%list) /\
  (forall w1,
     startup H w = (Normal tt, w1) ->
     picked i <> Pick1 ->
     run_clicked i = true ->
     PyStr.truthy (PyStr.strip (topic_text i)) = true ->
     runs (log (snd (script H i w))) =
       (runs (log w)
        ++ [(select_agent (radio_value (picked i)), topic_text i)])%list).
Proof.
  split; [reflexivity |].
  split; [now destruct (picked i) |].
  split; [now destruct (picked i) |].
  split; [apply script_runs |].
  intros w1 Hstart Hc Hclick Htopic.
  destruct (startup_spec H w) as (o & w' & Hs & Hlog & _).
  unfold script, bind. rewrite Hstart. cbn [snd].
  rewrite Hstart in Hs. inversion Hs; subst.
  rewrite <- Hlog. now apply plain_dispatch.
Qed.

(** ** Claim C3 *)

(** After [df.empty] has been refuted the frame has a column, so the branch
    of line 219 is never taken. *)
Lemma no_columns_branch_is_dead (df : DataFrame) :
  DF.empty df = false -> (snd (DF.shape df) =? 0)%nat = false.
Proof. unfold DF.empty. now intros [_ ?]%orb_false_iff. Qed.

(** C3, what the code does: an uploaded CSV that parses to a frame with no
    rows or no columns is reported ("contains no data rows") but
    [uploaded_file] stays set, so a click on Run Research with a topic
    summarizes that very frame and sends the summary to the Data Analyst. *)
Theorem empty_upload_is_still_dispatched
    (H : Host) (f : UploadedFile) (df : DataFrame) (topic : string)
    (env fs : gmap string string) (ds : gset string) :
  os_fault H "tmp" = None ->
  os_fault H (path_join "tmp" (file_name f)) = None ->
  read_csv (pandas H) (file_bytes f) = Ok df ->
  DF.empty df = true ->
  PyStr.truthy (PyStr.strip topic) = true ->
  exists data_context,
    (forall w, create_data_analysis_context H df topic w
               = (Normal data_context, w)) /\
    In (StError "❌ The CSV file contains no data rows.")
       (log (snd (ui H (mkInputs Pick1 (Some f) topic true)
                    (fresh env fs ds)))) /\
    runs (log (snd (ui H (mkInputs Pick1 (Some f) topic true)
                      (fresh env fs ds))))
      = [(AnAgent Data_Analyst, enhanced_topic data_context topic)].
Proof.
  intros Htmp Hpath Hcsv Hempty Htopic.
  destruct (data_analyst_dispatch H f df topic env fs ds Htmp Hpath Hcsv Htopic)
    as (ctx & Hctx & Hruns & Hshown).
  exists ctx. auto.
Qed.

Lemma empty_upload_is_still_dispatched_witness :
  let H := Plain.host (Ok (Some "analysis")) in
  let f := mkUploadedFile "d.csv" ("a,b" +:+ PyStr.nl) in
  let df := {| index_len := 0;
               cols := [mkColumn "a" ObjectT []; mkColumn "b" ObjectT []] |} in
  let i := mkInputs Pick1 (Some f) "trends" true in
  read_csv (pandas H) (file_bytes f) = Ok df /\
  DF.empty df = true /\
  exists data_context,
    (forall w, create_data_analysis_context H df "trends" w
               = (Normal data_context, w)) /\
    In (StError "❌ The CSV file contains no data rows.")
       (log (snd (ui H i (fresh ∅ ∅ ∅)))) /\
    runs (log (snd (ui H i (fresh ∅ ∅ ∅))))
      = [(AnAgent Data_Analyst, enhanced_topic data_context "trends")].
Proof.
  split; [reflexivity |]. split; [reflexivity |].
  exact (empty_upload_is_still_dispatched (Plain.host (Ok (Some "analysis")))
           (mkUploadedFile "d.csv" ("a,b" +:+ PyStr.nl)) _ "trends" ∅ ∅ ∅
           eq_refl eq_refl eq_refl eq_refl eq_refl).
Defined.

(** ** Claim C10 *)

(** [load_dotenv] leaves a variable unset exactly when neither the process
    environment nor the [.env] file has it. *)
Lemma unset_after_load_dotenv (H : Host) (w : World) (key : string) :
  environ (snd (load_dotenv H w)) !! key = None <->
  environ w !! key = None /\ dotenv H !! key = None.
Proof. unfold load_dotenv. cbn. apply lookup_union_None. Qed.

(** C10: when [GROQ_API_KEY] is unset in [os.environ] as line 19 runs
    ([load_dotenv] has run and has not supplied it either), [os.getenv]
    returns [None] and the assignment to [os.environ] raises [TypeError]; the
    script ends there with that exception and has rendered nothing, no inline
    error either. *)
Theorem missing_api_key_fails_at_startup (H : Host) (i : Inputs) (w : World) :
  environ (snd (load_dotenv H w)) !! "GROQ_API_KEY" = None ->
  exists w',
    script H i w = (Raised (Exn "TypeError" "str expected, not NoneType"), w') /\
    log w' = log w /\
    errors (log w') = errors (log w).
Proof.
  intros Hnone. unfold load_dotenv in Hnone. cbn in Hnone.
  unfold script, startup, load_dotenv, os_getenv, environ_setitem, bind, raise.
  cbn. rewrite Hnone. eexists. repeat split.
Qed.

Lemma missing_api_key_fails_at_startup_witness :
  let H := Plain.host (Ok None) in
  let i := mkInputs Pick0 None "green roofs" true in
  let w := fresh ∅ ∅ ∅ in
  environ (snd (load_dotenv H w)) !! "GROQ_API_KEY" = None /\
  exists w',
    script H i w = (Raised (Exn "TypeError" "str expected, not NoneType"), w') /\
    log w' = log w /\
    errors (log w') = errors (log w).
Proof.
  split; [reflexivity |].
  exact (missing_api_key_fails_at_startup (Plain.host (Ok None))
           (mkInputs Pick0 None "green roofs" true) (fresh ∅ ∅ ∅) eq_refl).
Defined.

(** With the key set and the download directory creatable, start-up
    succeeds and the user interface is rendered. *)
Lemma startup_with_key (H : Host) (w : World) (key : string) :
  (environ w ∪ dotenv H) !! "GROQ_API_KEY" = Some key ->
  os_fault H (path_join (script_dir H) "tmp") = None ->
  exists w', startup H w = (Normal tt, w') /\ log w' = log w /\
             environ w' !! "GROQ_API_KEY" = Some key.
Proof.
  intros Hkey Hdir.
  unfold startup, load_dotenv, os_getenv, environ_setitem, mkdir, bind, raise.
  cbn. rewrite Hkey. cbn. rewrite Hdir. eexists. repeat split.
  cbn. apply lookup_insert_eq.
Qed.

(** ** Claim C7 *)

Lemma truthy_empty (s : string) : PyStr.truthy s = false <-> s = "".
Proof. unfold PyStr.truthy. destruct s; split; congruence. Qed.

(** C7: on a click of Run Research, (1) if the topic is empty once stripped
    of whitespace, the last thing rendered is the warning "Please enter a
    topic first." and no agent is run; (2) if the topic is there, the Data
    Analyst is the choice and no file is uploaded, the script is stopped
    right after the error "Please upload a CSV file first for data
    analysis.", and no agent is run. *)
Theorem missing_input_is_reported_without_dispatch
    (H : Host) (i : Inputs) (env fs : gmap string string) (ds : gset string) :
  run_clicked i = true ->
  (PyStr.strip (topic_text i) = "" ->
   exists before w',
     ui H i (fresh env fs ds) = (Normal tt, w') /\
     log w' = (before ++ [StWarning "Please enter a topic first."])%list /\
     runs (log w') = []) /\
  (PyStr.strip (topic_text i) <> "" ->
   radio_value (picked i) = "Data Analyst" ->
   uploaded i = None ->
   exists before w',
     ui H i (fresh env fs ds) = (Stopped, w') /\
     log w' =
       (before
        ++ [StError "❌ Please upload a CSV file first for data analysis."])%list /\
     runs (log w') = []).
Proof.
  destruct i as [c uf topic clicked]. cbn [picked uploaded topic_text run_clicked].
  intros ->. split.
  - intros Hblank. apply truthy_empty in Hblank.
    unfold ui, bind, show, ret, fresh. cbn.
    match goal with
    | |- context [upload_section ?h ?a ?j ?v] =>
        destruct (upload_section_spec h a j v)
          as (u & us & w1 & Hu & Hlog & Hus)
    end.
    rewrite Hu. cbn. unfold run_research. rewrite Hblank. unfold show.
    eexists. eexists. split; [reflexivity |]. cbn [log]. split; [reflexivity |].
    rewrite Hlog. cbn [log]. rewrite !runs_app, Hus. reflexivity.
  - intros Htopic Hc ->.
    assert (Htruthy : PyStr.truthy (PyStr.strip topic) = true)
      by (destruct (PyStr.strip topic); [congruence | reflexivity]).
    destruct c; try discriminate Hc.
    unfold ui, fresh. exec.
    eexists (_ :: _ :: _ :: _ :: _ :: _ :: _ :: _ :: _ :: [_]). eexists.
    split; [reflexivity |]. split; reflexivity.
Qed.

Lemma missing_input_is_reported_without_dispatch_witness :
  let H := Plain.host (Ok (Some "answer")) in
  let i := mkInputs Pick1 None "   " true in
  (PyStr.strip (topic_text i) = "" ->
   exists before w',
     ui H i (fresh ∅ ∅ ∅) = (Normal tt, w') /\
     log w' = (before ++ [StWarning "Please enter a topic first."])%list /\
     runs (log w') = []) /\
  (PyStr.strip (topic_text i) <> "" ->
   radio_value (picked i) = "Data Analyst" ->
   uploaded i = None ->
   exists before w',
     ui H i (fresh ∅ ∅ ∅) = (Stopped, w') /\
     log w' =
       (before
        ++ [StError "❌ Please upload a CSV file first for data analysis."])%list /\
     runs (log w') = []).
Proof.
  exact (missing_input_is_reported_without_dispatch
           (Plain.host (Ok (Some "answer")))
           (mkInputs Pick1 None "   " true) ∅ ∅ ∅ eq_refl).
Defined.

(** ** Claim C9 *)

(** C9: with the Data Analyst picked and a file in the uploader, if saving
    the file (creating [tmp], writing the file) or parsing it raises [e],
    the handler shows "Error processing CSV file: " with [str(e)] and
    [uploaded_file] becomes [None]; a click on Run Research with a topic
    then shows the missing-upload error, stops the script, and runs no
    agent. *)
Theorem failed_upload_is_reset
    (H : Host) (f : UploadedFile) (topic : string) (e : exn)
    (env fs : gmap string string) (ds : gset string) :
  os_fault H "tmp" = Some e \/
  (os_fault H "tmp" = None /\
   os_fault H (path_join "tmp" (file_name f)) = Some e) \/
  (os_fault H "tmp" = None /\
   os_fault H (path_join "tmp" (file_name f)) = None /\
   read_csv (pandas H) (file_bytes f) = Raise e) ->
  PyStr.truthy (PyStr.strip topic) = true ->
  let i := mkInputs Pick1 (Some f) topic true in
  (forall w, fst (upload_section H (radio_value Pick1) i w) = Normal None) /\
  exists w',
    ui H i (fresh env fs ds) = (Stopped, w') /\
    errors (log w') =
      ["❌ Error processing CSV file: " +:+ exn_msg e;
       "❌ Please upload a CSV file first for data analysis."] /\
    runs (log w') = [].
Proof.
  intros Hfail Htopic i. subst i.
  destruct Hfail as [Htmp | [(Htmp & Hpath) | (Htmp & Hpath & Hcsv)]].
  all: split; [intros w; exec; reflexivity |].
  all: unfold ui, fresh; exec.
  all: eexists; split; [reflexivity |]; split; reflexivity.
Qed.

Lemma failed_upload_is_reset_witness :
  let H := Plain.host (Ok (Some "answer")) in
  let f := mkUploadedFile "empty.csv" "" in
  let e := Exn "EmptyDataError" "No columns to parse from file" in
  let i := mkInputs Pick1 (Some f) "trends" true in
  read_csv (pandas H) (file_bytes f) = Raise e /\
  (forall w, fst (upload_section H (radio_value Pick1) i w) = Normal None) /\
  exists w',
    ui H i (fresh ∅ ∅ ∅) = (Stopped, w') /\
    errors (log w') =
      ["❌ Error processing CSV file: " +:+ exn_msg e;
       "❌ Please upload a CSV file first for data analysis."] /\
    runs (log w') = [].
Proof.
  split; [reflexivity |].
  exact (failed_upload_is_reset (Plain.host (Ok (Some "answer")))
           (mkUploadedFile "empty.csv" "")
           "trends" (Exn "EmptyDataError" "No columns to parse from file")
           ∅ ∅ ∅
           (or_intror (or_intror (conj eq_refl (conj eq_refl eq_refl))))
           eq_refl).
Defined.

(** ** Claim C5 *)

(** C5, as stated, fails: an error text that holds both patterns gets the
    tool hint only; the rate-limit hint is not shown although the text
    contains "rate limit". *)
Lemma both_patterns_show_one_hint :
  let e := Exn "ModelProviderError"
             "tool call validation failed after a rate limit retry" in
  let H := Plain.host (Raise e) in
  let w' := snd (ui H (mkInputs Pick0 None "green roofs" true)
                   (fresh ∅ ∅ ∅)) in
  PyStr.str_in "rate limit" (PyStr.lower (exn_msg e)) = true /\
  runs (log w') = [(AnAgent News_Analyst, "green roofs")] /\
  errors (log w') = ["Error: " +:+ exn_msg e] /\
  infos (log w') = [tool_tip].
Proof. repeat split. Qed.

(** C5, amended: Run Research never lets an exception out, so the script
    goes on to its end; when the dispatch raises [e], "Error: " with
    [str(e)] is shown, followed by at most one hint: the tool hint when the
    text contains "tool call validation failed"; otherwise the rate-limit
    hint when the lower-cased text contains "rate limit"; otherwise
    nothing. *)
Theorem run_errors_are_reported
    (H : Host) (agent_choice : string) (selected_agent : runnable)
    (uploaded_file : option UploadedFile) (topic : string) (w : World) :
  (exists o w',
     run_research H agent_choice selected_agent uploaded_file topic w
       = (o, w') /\
     forall e, o <> Raised e) /\
  (forall e w1,
     dispatch H agent_choice selected_agent uploaded_file topic w
       = (Raised e, w1) ->
     exists hints w2,
       try_except
         (dispatch H agent_choice selected_agent uploaded_file topic)
         on_error w = (Normal tt, w2) /\
       log w2 = (log w1 ++ StError ("Error: " +:+ exn_msg e) :: hints)%list /\
       (PyStr.contains "tool call validation failed" (exn_msg e) ->
        hints = [StInfo tool_tip]) /\
       (~ PyStr.contains "tool call validation failed" (exn_msg e) ->
        PyStr.contains "rate limit" (PyStr.lower (exn_msg e)) ->
        hints = [StInfo rate_tip]) /\
       (~ PyStr.contains "tool call validation failed" (exn_msg e) ->
        ~ PyStr.contains "rate limit" (PyStr.lower (exn_msg e)) ->
        hints = [])).
Proof.
  split.
  - destruct (run_research_spec H agent_choice selected_agent uploaded_file
                topic w) as (o & w' & Hr & Ho & _).
    now exists o, w'.
  - intros e w1 Hd. unfold try_except. rewrite Hd.
    unfold on_error, bind, show, ret. cbn.
    destruct (PyStr.str_in "tool call validation failed" (exn_msg e)) eqn:Ht;
      [| destruct (PyStr.str_in "rate limit" (PyStr.lower (exn_msg e)))
           eqn:Hr].
    + apply str_in_spec in Ht.
      eexists [_]. eexists. split; [reflexivity |]. cbn [log].
      split; [now rewrite <- app_assoc |]. repeat split; tauto.
    + apply str_in_false in Ht. apply str_in_spec in Hr.
      eexists [_]. eexists. split; [reflexivity |]. cbn [log].
      split; [now rewrite <- app_assoc |]. repeat split; tauto.
    + apply str_in_false in Ht. apply str_in_false in Hr.
      exists []. eexists. split; [reflexivity |]. cbn [log].
      split; [reflexivity |]. repeat split; tauto.
Qed.

(** ** The model at work *)

Example strip_blank :
  PyStr.strip ("  " +:+ PyStr.nl +:+ PyStr.utf8 160%N) = "".
Proof. reflexivity. Qed.

Example strip_keeps_inner_spaces :
  PyStr.strip (" air quality " +:+ PyStr.utf8 8232%N) = "air quality".
Proof. reflexivity. Qed.

Example lower_then_in :
  PyStr.str_in "rate limit" (PyStr.lower "429: Rate Limit exceeded") = true /\
  PyStr.str_in "rate limit" "429: Rate Limit exceeded" = false.
Proof. split; reflexivity. Qed.

(** The sample offered for download: 6 rows, 8 columns, 6 of them numeric. *)
Example sample_data_overview :
  shape_info sample_data = "Dataset shape: 6 rows, 8 columns" /\
  columns_info sample_data
    = "Columns: Date, City, PM2.5, PM10, NO2, O3, Temperature, Humidity" /\
  DF.numerical_cols sample_data
    = ["PM2.5"; "PM10"; "NO2"; "O3"; "Temperature"; "Humidity"] /\
  DF.isnull_sum sample_data
    = [("Date", 0); ("City", 0); ("PM2.5", 0); ("PM10", 0); ("NO2", 0);
       ("O3", 0); ("Temperature", 0); ("Humidity", 0)]%nat.
Proof. repeat split. Qed.

Lemma no_columns_branch_is_dead_witness :
  DF.empty sample_data = false /\
  (snd (DF.shape sample_data) =? 0)%nat = false.
Proof.
  split; [reflexivity |].
  exact (no_columns_branch_is_dead sample_data eq_refl).
Defined.

(** A CSV with rows: saved, previewed, summarized, and answered. *)
Example good_upload_run :
  let H := Plain.host (Ok (Some "PM10 is higher in Rome.")) in
  let f := mkUploadedFile "air.csv"
             ("city,pm10" +:+ PyStr.nl +:+ "Oslo,18" +:+ PyStr.nl
              +:+ "Rome,31" +:+ PyStr.nl) in
  let r := script H (mkInputs Pick1 (Some f) "compare cities" true)
             (fresh {["GROQ_API_KEY" := "gsk"]} ∅ ∅) in
  fst r = Normal tt /\
  files (snd r) !! "tmp/air.csv" = Some (file_bytes f) /\
  errors (log (snd r)) = [] /\
  map fst (runs (log (snd r))) = [AnAgent Data_Analyst] /\
  List.last (log (snd r)) (StTitle "") = StMarkdown "PM10 is higher in Rome.".
Proof. vm_compute. repeat split. Qed.

(** A disk that refuses the write: the upload is dropped. *)
Example refused_write_run :
  let e := Exn "PermissionError" "[Errno 13] Permission denied: 'tmp'" in
  let r := ui (Plain.broken_disk_host e)
             (mkInputs Pick1 (Some (mkUploadedFile "air.csv" "a")) "x" true)
             (fresh ∅ ∅ ∅) in
  fst r = Stopped /\
  errors (log (snd r)) =
    ["❌ Error processing CSV file: [Errno 13] Permission denied: 'tmp'";
     "❌ Please upload a CSV file first for data analysis."] /\
  runs (log (snd r)) = [].
Proof. vm_compute. repeat split. Qed.

(** * Further properties of the script *)

(** ** What the upload section does to the world *)

Lemma upload_section_effects (H : Host) (agent_choice : string)
    (picked_choice : choice) (u : option UploadedFile) (topic : string)
    (clicked : bool) (w : World) :
  let i := mkInputs picked_choice u topic clicked in
  exists uploaded_file us w',
    upload_section H agent_choice i w = (Normal uploaded_file, w') /\
    log w' = (log w ++ us)%list /\
    environ w' = environ w /\
    runs us = [] /\
    existsb (String.eqb "❌ The CSV file has no columns.") (errors us) = false /\
    (uploaded_file = None \/ uploaded_file = u) /\
    ((files w' = files w /\ dirs w' = dirs w) \/
     (dirs w' = {["tmp"]} ∪ dirs w /\
      (files w' = files w \/
       exists f, u = Some f /\
         files w' = <[path_join "tmp" (file_name f) := file_bytes f]> (files w)))) /\
    (String.eqb agent_choice "Data Analyst" = false ->
     uploaded_file = None /\ us = [] /\ w' = w).
Proof.
  intros i. subst i. unfold upload_section. cbn [uploaded].
  destruct (String.eqb agent_choice "Data Analyst") eqn:Hac.
  2: { exists None, [], w. unfold ret. rewrite app_nil_r. repeat split; auto. }
  destruct u as [f |]; exec.
  all: try (exfalso;
            match goal with
            | E1 : DF.empty ?d = false,
              E2 : (snd (DF.shape ?d) =? 0)%nat = true |- _ =>
                rewrite (no_columns_branch_is_dead d E1) in E2; discriminate
            end).
  all: do 2 eexists; eexists; split; [reflexivity |]; cbn [log environ files dirs].
  all: rewrite <- ?app_assoc; cbn [app].
  all: split; [reflexivity |]; split; [reflexivity |]; split; [reflexivity |].
  all: split; [reflexivity |]; split; [auto |]; split; [| discriminate].
  all: first [ left; split; reflexivity
             | right; split; [reflexivity |];
               first [ left; reflexivity
                     | right; eexists; split; reflexivity ] ].
Qed.

(** ** What Run Research does to the world *)

Lemma run_research_effects (H : Host) (agent_choice : string)
    (selected_agent : runnable) (uploaded_file : option UploadedFile)
    (topic : string) (w : World) :
  exists o rs w',
    run_research H agent_choice selected_agent uploaded_file topic w = (o, w') /\
    log w' = (log w ++ rs)%list /\
    environ w' = environ w /\ files w' = files w /\ dirs w' = dirs w /\
    existsb (String.eqb "❌ The CSV file has no columns.") (errors rs) = false /\
    (o = Normal tt \/
     (o = Stopped /\
      String.eqb agent_choice "Data Analyst" = true /\
      uploaded_file = None /\
      PyStr.truthy (PyStr.strip topic) = true /\
      runs rs = [] /\
      List.last rs (StTitle "") =
        StError "❌ Please upload a CSV file first for data analysis.")).
Proof.
  exec.
  all: try destruct uploaded_file; repeat exec_step.
  all: try (exfalso;
            match goal with
            | E : fst (summary ?h ?d ?t ?v) = Stopped |- _ =>
                destruct (summary_frame h d t v) as [_ Hn]; exact (Hn E)
            end).
  all: do 2 eexists; eexists; split; [reflexivity |]; cbn [log environ files dirs].
  all: rewrite <- ?app_assoc; cbn [app].
  all: split; [reflexivity |]; split; [reflexivity |]; split; [reflexivity |].
  all: split; [reflexivity |]; split; [reflexivity |].
  all: first [ left; reflexivity | right; repeat split; reflexivity ].
Qed.

Lemma errors_app (l1 l2 : list event) :
  errors (l1 ++ l2) = (errors l1 ++ errors l2)%list.
Proof. apply flat_map_app. Qed.

Lemma last_app_cons (l1 l2 : list event) (x d : event) :
  List.last (l1 ++ x :: l2) d = List.last (x :: l2) d.
Proof.
  induction l1 as [|y l1 IH]; [reflexivity |].
  cbn [app]. rewrite <- IH. cbn [List.last].
  destruct (l1 ++ x :: l2)%list eqn:E; [| reflexivity].
  now destruct l1.
Qed.

(** ** One execution of the user interface, as a whole *)

Lemma ui_effects (H : Host) (i : Inputs) (w : World) :
  exists o es w',
    ui H i w = (o, w') /\
    log w' = (log w ++ es)%list /\
    environ w' = environ w /\
    existsb (String.eqb "❌ The CSV file has no columns.") (errors es) = false /\
    (o = Normal tt \/
     (o = Stopped /\
      radio_value (picked i) = "Data Analyst" /\
      run_clicked i = true /\
      PyStr.truthy (PyStr.strip (topic_text i)) = true /\
      runs es = [] /\
      List.last es (StTitle "") =
        StError "❌ Please upload a CSV file first for data analysis.")) /\
    ((files w' = files w /\ dirs w' = dirs w) \/
     (dirs w' = {["tmp"]} ∪ dirs w /\
      (files w' = files w \/
       exists f, uploaded i = Some f /\
         files w' =
           <[path_join "tmp" (file_name f) := file_bytes f]> (files w)))) /\
    (String.eqb (radio_value (picked i)) "Data Analyst" = false ->
     files w' = files w /\ dirs w' = dirs w).
Proof.
  destruct i as [c u topic clicked].
  cbn [picked uploaded topic_text run_clicked].
  remember (String.eqb "❌ The CSV file has no columns.") as is_msg eqn:Eis.
  unfold ui, bind, show, ret. cbn.
  match goal with
  | |- context [upload_section ?h ?a ?j ?v] =>
      destruct (upload_section_effects h a c u topic clicked v)
        as (uf & us & w1 & Hu & Hlog & Henv & Hruns & Hmsg & _ & Hfiles
            & Hother)
  end.
  rewrite Hu. cbn. cbn [log environ files dirs] in *.
  destruct clicked.
  - match goal with
    | |- context [run_research ?h ?a ?s ?x ?t ?v] =>
        destruct (run_research_effects h a s x t v)
          as (o & rs & w2 & Hr & Hlog2 & Henv2 & Hfiles2 & Hdirs2 & Hmsg2
              & Ho)
    end.
    rewrite <- Eis in Hmsg, Hmsg2.
    rewrite Hr. cbn [log environ files dirs] in *.
    eexists o, ([_; _; _; _] ++ us ++ [_; _] ++ rs)%list, w2.
    split; [reflexivity |].
    split.
    { rewrite Hlog2, Hlog. rewrite <- !app_assoc. reflexivity. }
    split; [congruence |].
    split.
    { rewrite !errors_app, !existsb_app, Hmsg, Hmsg2. now subst is_msg. }
    split.
    { destruct Ho as [-> | (-> & Hac & _ & Htopic & Hrs & Hlast)];
        [now left | right].
      apply String.eqb_eq in Hac.
      repeat split; try assumption.
      - rewrite !runs_app, Hruns, Hrs. reflexivity.
      - destruct rs as [|r rs]; [discriminate Hlast |].
        now rewrite !app_assoc, last_app_cons. }
    rewrite Hfiles2, Hdirs2. split; [exact Hfiles |].
    intros Hac. destruct (Hother Hac) as (_ & _ & ->). now split.
  - rewrite <- Eis in Hmsg.
    eexists (Normal tt), ([_; _; _; _] ++ us ++ [_; _])%list, _.
    split; [reflexivity |]. cbn [log environ files dirs].
    split.
    { rewrite Hlog. rewrite <- !app_assoc. reflexivity. }
    split; [assumption |].
    split.
    { rewrite !errors_app, !existsb_app, Hmsg. now subst is_msg. }
    split; [now left |]. split; [exact Hfiles |].
    intros Hac. destruct (Hother Hac) as (_ & _ & ->). now split.
Qed.

(** ** The message of line 220 *)

(** X1: in no execution of the script is "The CSV file has no columns." shown:
    [df.empty] on line 217 already holds for a frame without columns. *)
Theorem no_columns_message_is_never_shown
    (H : Host) (i : Inputs) (env fs : gmap string string) (ds : gset string) :
  existsb (String.eqb "❌ The CSV file has no columns.")
    (errors (log (snd (script H i (fresh env fs ds))))) = false.
Proof.
  unfold script, bind.
  destruct (startup_spec H (fresh env fs ds)) as (o & w1 & Hs & Hlog & _).
  rewrite Hs. cbn [log fresh] in Hlog.
  destruct o as [[] | e |]; cbn [snd]; try (rewrite Hlog; reflexivity).
  destruct (ui_effects H i w1) as (o & es & w2 & Hui & Hlog2 & _ & Hmsg & _).
  rewrite Hui. cbn [snd]. rewrite Hlog2, Hlog. exact Hmsg.
Qed.

(** ** The upload section as a whole *)

(** X2: whatever the file, the disk and the parser do, the upload section
    returns normally: no exception leaves it, no agent is run, the
    environment is untouched, and [uploaded_file] ends as [None] or as the
    uploader's value.  For any choice but "Data Analyst" it renders nothing,
    changes nothing and yields [None]. *)
Theorem upload_section_is_contained
    (H : Host) (agent_choice : string) (i : Inputs) (w : World) :
  exists uploaded_file w',
    upload_section H agent_choice i w = (Normal uploaded_file, w') /\
    runs (log w') = runs (log w) /\
    environ w' = environ w /\
    (uploaded_file = None \/ uploaded_file = uploaded i) /\
    (String.eqb agent_choice "Data Analyst" = false ->
     uploaded_file = None /\ w' = w).
Proof.
  destruct i as [c u topic clicked].
  destruct (upload_section_effects H agent_choice c u topic clicked w)
    as (uf & us & w' & Hu & Hlog & Henv & Hruns & _ & Huf & _ & Hother).
  exists uf, w'. split; [exact Hu |].
  split; [rewrite Hlog, runs_app, Hruns; apply app_nil_r |].
  split; [exact Henv |]. split; [exact Huf |].
  intros Hac. destruct (Hother Hac) as (? & _ & ?). now split.
Qed.

(** ** What an execution writes *)

(** X3: the user interface never touches the environment, and on disk it writes
    at most the uploaded file, at [tmp/<name>], with the uploaded bytes;
    every other path keeps its content (an older file of the same name is
    overwritten).  With any choice but "Data Analyst" nothing is written. *)
Theorem ui_writes_only_the_upload
    (H : Host) (i : Inputs) (w : World) :
  environ (snd (ui H i w)) = environ w /\
  (forall p,
     files (snd (ui H i w)) !! p = files w !! p \/
     exists f, uploaded i = Some f /\
       p = path_join "tmp" (file_name f) /\
       files (snd (ui H i w)) !! p = Some (file_bytes f)) /\
  (String.eqb (radio_value (picked i)) "Data Analyst" = false ->
   files (snd (ui H i w)) = files w /\ dirs (snd (ui H i w)) = dirs w).
Proof.
  destruct (ui_effects H i w)
    as (o & es & w' & Hui & _ & Henv & _ & _ & Hfiles & Hother).
  rewrite Hui. cbn [snd]. split; [exact Henv |]. split; [| exact Hother].
  intros p.
  destruct Hfiles as [[-> _] | [_ [-> | (f & Hf & ->)]]]; auto.
  destruct (decide (path_join "tmp" (file_name f) = p)) as [<- | Hne].
  - right. exists f. now rewrite lookup_insert_eq.
  - left. now rewrite lookup_insert_ne.
Qed.

(** ** How an execution ends *)

(** X4: no exception leaves the user interface: an execution ends normally, or
    it is stopped by [st.stop()], and that only on a click of Run Research
    with a topic and the Data Analyst chosen, right after the missing-upload
    error and without any agent having been run. *)
Theorem ui_ends_normally_or_stopped
    (H : Host) (i : Inputs) (env fs : gmap string string) (ds : gset string) :
  fst (ui H i (fresh env fs ds)) = Normal tt \/
  (fst (ui H i (fresh env fs ds)) = Stopped /\
   radio_value (picked i) = "Data Analyst" /\
   run_clicked i = true /\
   PyStr.truthy (PyStr.strip (topic_text i)) = true /\
   runs (log (snd (ui H i (fresh env fs ds)))) = [] /\
   List.last (log (snd (ui H i (fresh env fs ds)))) (StTitle "") =
     StError "❌ Please upload a CSV file first for data analysis.").
Proof.
  destruct (ui_effects H i (fresh env fs ds))
    as (o & es & w' & Hui & Hlog & _ & _ & Ho & _).
  rewrite Hui. cbn [fst snd]. cbn [log fresh app] in Hlog. rewrite Hlog.
  destruct Ho as [-> | (-> & ?)]; [now left | now right].
Qed.

(** ** Start-up *)

(** X5: when [GROQ_API_KEY] is set as line 19 runs and the download directory
    can be created, start-up succeeds and line 19 changes nothing: the
    environment is the process environment completed by [.env] (a variable
    of the process keeps its value), no file is touched, nothing is
    rendered, and the directory [<script dir>/tmp] exists afterwards. *)
Theorem startup_leaves_environment_as_loaded
    (H : Host) (w : World) (key : string) :
  environ (snd (load_dotenv H w)) !! "GROQ_API_KEY" = Some key ->
  os_fault H (path_join (script_dir H) "tmp") = None ->
  exists w',
    startup H w = (Normal tt, w') /\
    environ w' = environ w ∪ dotenv H /\
    (forall k v, environ w !! k = Some v -> environ w' !! k = Some v) /\
    files w' = files w /\
    log w' = log w /\
    dirs w' = {[path_join (script_dir H) "tmp"]} ∪ dirs w.
Proof.
  intros Hkey Hdir. unfold load_dotenv in Hkey. cbn in Hkey.
  unfold startup, load_dotenv, os_getenv, environ_setitem, mkdir, bind, raise.
  cbn. rewrite Hkey. cbn. rewrite Hdir. eexists. split; [reflexivity |].
  cbn [environ files dirs log]. rewrite (insert_id _ _ _ Hkey).
  repeat split. intros k v Hk. now apply lookup_union_Some_l.
Qed.

Lemma startup_leaves_environment_as_loaded_witness :
  let H := Plain.host (Ok None) in
  let w := fresh {["GROQ_API_KEY" := "gsk"; "HOME" := "/root"]} ∅ ∅ in
  environ (snd (load_dotenv H w)) !! "GROQ_API_KEY" = Some "gsk" /\
  exists w',
    startup H w = (Normal tt, w') /\
    environ w' = environ w ∪ dotenv H /\
    (forall k v, environ w !! k = Some v -> environ w' !! k = Some v) /\
    files w' = files w /\
    log w' = log w /\
    dirs w' = {[path_join (script_dir H) "tmp"]} ∪ dirs w.
Proof.
  split; [reflexivity |].
  exact (startup_leaves_environment_as_loaded (Plain.host (Ok None))
           (fresh {["GROQ_API_KEY" := "gsk"; "HOME" := "/root"]} ∅ ∅) "gsk"
           eq_refl eq_refl).
Defined.

(** X6: when the key is set but the download directory cannot be created, the
    script ends with the operating system's error: nothing has been
    rendered and no agent has been run. *)
Theorem unwritable_directory_fails_at_startup
    (H : Host) (i : Inputs) (w : World) (key : string) (e : exn) :
  environ (snd (load_dotenv H w)) !! "GROQ_API_KEY" = Some key ->
  os_fault H (path_join (script_dir H) "tmp") = Some e ->
  exists w',
    script H i w = (Raised e, w') /\
    log w' = log w /\
    files w' = files w /\
    dirs w' = dirs w.
Proof.
  intros Hkey Hdir. unfold load_dotenv in Hkey. cbn in Hkey.
  unfold script, startup, load_dotenv, os_getenv, environ_setitem, mkdir,
    bind, raise.
  cbn. rewrite Hkey. cbn. rewrite Hdir. eexists. repeat split.
Qed.

Lemma unwritable_directory_fails_at_startup_witness :
  let e := Exn "PermissionError" "[Errno 13] Permission denied: '/app/tmp'" in
  let H := Plain.broken_disk_host e in
  let i := mkInputs Pick0 None "green roofs" true in
  let w := fresh {["GROQ_API_KEY" := "gsk"]} ∅ ∅ in
  os_fault H (path_join (script_dir H) "tmp") = Some e /\
  exists w',
    script H i w = (Raised e, w') /\
    log w' = log w /\
    files w' = files w /\
    dirs w' = dirs w.
Proof.
  split; [reflexivity |].
  exact (unwritable_directory_fails_at_startup
           (Plain.broken_disk_host
              (Exn "PermissionError" "[Errno 13] Permission denied: '/app/tmp'"))
           (mkInputs Pick0 None "green roofs" true)
           (fresh {["GROQ_API_KEY" := "gsk"]} ∅ ∅) "gsk" _ eq_refl eq_refl).
Defined.

(** ** Agent selection *)

(** X7: distinct radio options select distinct things to run; the members of the
    team are, in order, the agents of the four individual options; and any
    string that is not one of the four agent names selects the team. *)
Theorem radio_options_select_distinct_agents :
  (forall c1 c2 : choice,
     select_agent (radio_value c1) = select_agent (radio_value c2) ->
     c1 = c2) /\
  map AnAgent (members discussion_team)
    = map (fun c => select_agent (radio_value c)) [Pick0; Pick1; Pick2; Pick3] /\
  (forall s : string,
     In s (firstn 4 agent_options) \/ select_agent s = ATeam discussion_team).
Proof.
  split; [| split; [reflexivity |]].
  - intros [] []; cbn; intros E; try reflexivity; discriminate E.
  - intros s. unfold select_agent.
    repeat match goal with
           | |- context [String.eqb s ?t] =>
               destruct (String.eqb_spec s t) as [-> | ?]
           end; cbn; auto 6.
Qed.

(** ** Without a click *)

(** X8: when Run Research is not clicked, the execution ends normally once the
    button has been rendered, and no agent is run, whatever was uploaded. *)
Theorem no_click_no_dispatch
    (H : Host) (i : Inputs) (env fs : gmap string string) (ds : gset string) :
  run_clicked i = false ->
  exists w',
    ui H i (fresh env fs ds) = (Normal tt, w') /\
    runs (log w') = [] /\
    List.last (log w') (StTitle "") = StButton "Run Research".
Proof.
  destruct i as [c u topic clicked]. cbn [run_clicked]. intros ->.
  unfold ui, bind, show, ret, fresh. cbn.
  match goal with
  | |- context [upload_section ?h ?a ?j ?v] =>
      destruct (upload_section_effects h a c u topic false v)
        as (uf & us & w1 & Hu & Hlog & _ & Hruns & _)
  end.
  rewrite Hu. cbn. eexists. split; [reflexivity |]. cbn [log] in *.
  rewrite Hlog. split.
  - rewrite !runs_app, Hruns. reflexivity.
  - apply last_app_cons.
Qed.

Lemma no_click_no_dispatch_witness :
  let H := Plain.host (Ok (Some "answer")) in
  let i := mkInputs Pick1 (Some (mkUploadedFile "d.csv" "a,b")) "trends" false in
  exists w',
    ui H i (fresh ∅ ∅ ∅) = (Normal tt, w') /\
    runs (log w') = [] /\
    List.last (log w') (StTitle "") = StButton "Run Research".
Proof.
  exact (no_click_no_dispatch (Plain.host (Ok (Some "answer")))
           (mkInputs Pick1 (Some (mkUploadedFile "d.csv" "a,b")) "trends" false)
           ∅ ∅ ∅ eq_refl).
Defined.

(** ** The agent's answer *)

(** X9: for any choice but "Data Analyst", a click with a topic runs the selected
    agent on the topic exactly as typed (not stripped; an upload plays no
    part); when the call returns, its content is rendered as Markdown, or,
    if there is none, the warning "No content returned from the agent." is
    shown.  Nothing else is rendered and nothing is written. *)
Theorem agent_answer_is_rendered
    (H : Host) (agent_choice : string) (selected_agent : runnable)
    (uploaded_file : option UploadedFile) (topic : string)
    (r : option string) (w : World) :
  String.eqb agent_choice "Data Analyst" = false ->
  PyStr.truthy (PyStr.strip topic) = true ->
  agent_run H selected_agent topic = Ok r ->
  exists w',
    run_research H agent_choice selected_agent uploaded_file topic w
      = (Normal tt, w') /\
    log w' =
      (log w
       ++ [StSpinner ("Running " +:+ agent_choice +:+ "... please wait");
           AgentRun selected_agent topic;
           match r with
           | Some content => StMarkdown content
           | None => StWarning "No content returned from the agent."
           end])%list /\
    environ w' = environ w /\ files w' = files w /\ dirs w' = dirs w.
Proof.
  intros Hac Htopic Hrun. exec.
  all: destruct r; repeat exec_step.
  all: eexists; split; [reflexivity |]; cbn [log environ files dirs].
  all: rewrite <- ?app_assoc; repeat split.
Qed.

Lemma agent_answer_is_rendered_witness :
  let H := Plain.host (Ok None) in
  exists w',
    run_research H "Policy Reviewer" (AnAgent Policy_Reviewer) None
      " bike lanes " (fresh ∅ ∅ ∅) = (Normal tt, w') /\
    log w' =
      (log (fresh ∅ ∅ ∅)
       ++ [StSpinner ("Running " +:+ "Policy Reviewer" +:+ "... please wait");
           AgentRun (AnAgent Policy_Reviewer) " bike lanes ";
           StWarning "No content returned from the agent."])%list /\
    environ w' = environ (fresh ∅ ∅ ∅) /\
    files w' = files (fresh ∅ ∅ ∅) /\
    dirs w' = dirs (fresh ∅ ∅ ∅).
Proof.
  exact (agent_answer_is_rendered (Plain.host (Ok None)) "Policy Reviewer"
           (AnAgent Policy_Reviewer) None " bike lanes " None (fresh ∅ ∅ ∅)
           eq_refl eq_refl eq_refl).
Defined.

(** ** The Data Analyst's prompt *)

Lemma enhanced_topic_parts (data_context topic : string) :
  PyStr.contains data_context (enhanced_topic data_context topic) /\
  PyStr.contains topic (enhanced_topic data_context topic).
Proof.
  unfold enhanced_topic. cbv zeta.
  split; solve [ repeat first [ apply contains_here | apply contains_skip ] ].
Qed.

Lemma context_text_columns (a b c d e f g t : string) :
  PyStr.contains b (context_text a b c d e f g t).
Proof.
  unfold context_text.
  solve [ repeat first [ apply contains_here | apply contains_skip ] ].
Qed.

(** X10: when the summarizer fails on a parsed upload (a pandas call of its body
    raises [e]), the failure is not shown to the user: the Data Analyst is
    run all the same, on a prompt whose data context is the text
    "Error analyzing data: " followed by [str(e)], and its answer is
    rendered as usual. *)
Theorem summarizer_error_reaches_the_agent
    (H : Host) (f : UploadedFile) (df : DataFrame) (topic : string) (e : exn)
    (r : option string) (w0 : World)
    (env fs : gmap string string) (ds : gset string) :
  os_fault H "tmp" = None ->
  os_fault H (path_join "tmp" (file_name f)) = None ->
  read_csv (pandas H) (file_bytes f) = Ok df ->
  DF.empty df = false ->
  fst (summary H df topic w0) = Raised e ->
  PyStr.truthy (PyStr.strip topic) = true ->
  agent_run H (AnAgent Data_Analyst)
    (enhanced_topic ("Error analyzing data: " +:+ exn_msg e) topic) = Ok r ->
  exists w',
    ui H (mkInputs Pick1 (Some f) topic true) (fresh env fs ds)
      = (Normal tt, w') /\
    runs (log w') =
      [(AnAgent Data_Analyst,
        enhanced_topic ("Error analyzing data: " +:+ exn_msg e) topic)] /\
    errors (log w') = [] /\
    List.last (log w') (StTitle "") =
      match r with
      | Some content => StMarkdown content
      | None => StWarning "No content returned from the agent."
      end.
Proof.
  intros Htmp Hpath Hcsv Hempty Hsum Htopic Hrun.
  assert (Hctx : forall w,
             create_data_analysis_context H df topic w
             = (Normal ("Error analyzing data: " +:+ exn_msg e), w)).
  { intros w. rewrite create_data_analysis_context_cases.
    now rewrite (summary_world_independent H df topic w w0), Hsum. }
  pose proof (no_columns_branch_is_dead df Hempty) as Hcols.
  unfold ui, fresh. exec.
  all: destruct r; repeat exec_step.
  all: eexists; split; [reflexivity |]; repeat split.
Qed.

Lemma summarizer_error_reaches_the_agent_witness :
  let e := Exn "MemoryError" "Unable to allocate 3.1 GiB" in
  let H := Plain.brittle_host e (Ok (Some "I cannot see any data.")) in
  let f := mkUploadedFile "air.csv"
             ("city,pm10" +:+ PyStr.nl +:+ "Oslo,18" +:+ PyStr.nl) in
  let df := {| index_len := 1;
               cols := [mkColumn "city" ObjectT [str "Oslo"];
                        mkColumn "pm10" Int64 [Some (SInt 18)]] |} in
  read_csv (pandas H) (file_bytes f) = Ok df /\
  fst (summary H df "trends" (fresh ∅ ∅ ∅)) = Raised e /\
  exists w',
    ui H (mkInputs Pick1 (Some f) "trends" true) (fresh ∅ ∅ ∅)
      = (Normal tt, w') /\
    runs (log w') =
      [(AnAgent Data_Analyst,
        enhanced_topic ("Error analyzing data: " +:+ exn_msg e) "trends")] /\
    errors (log w') = [] /\
    List.last (log w') (StTitle "") = StMarkdown "I cannot see any data.".
Proof.
  split; [reflexivity |]. split; [reflexivity |].
  exact (summarizer_error_reaches_the_agent
           (Plain.brittle_host (Exn "MemoryError" "Unable to allocate 3.1 GiB")
              (Ok (Some "I cannot see any data.")))
           (mkUploadedFile "air.csv"
              ("city,pm10" +:+ PyStr.nl +:+ "Oslo,18" +:+ PyStr.nl))
           _ "trends" _ (Some "I cannot see any data.") (fresh ∅ ∅ ∅) ∅ ∅ ∅
           eq_refl eq_refl eq_refl eq_refl eq_refl eq_refl eq_refl).
Defined.

(** X11: for an upload that is saved and parsed into a dataset with at least one
    column (distinct labels), under pandas' contract, a click with a topic
    runs the Data Analyst once, on a prompt that contains the dataset's
    shape line, its column list, the correlation heading and the topic. *)
Theorem data_analyst_prompt_carries_summary
    (H : Host) (f : UploadedFile) (df : DataFrame) (topic : string)
    (env fs : gmap string string) (ds : gset string) :
  PandasContract (pandas H) ->
  DF.distinct_labels df ->
  cols df <> [] ->
  os_fault H "tmp" = None ->
  os_fault H (path_join "tmp" (file_name f)) = None ->
  read_csv (pandas H) (file_bytes f) = Ok df ->
  PyStr.truthy (PyStr.strip topic) = true ->
  exists prompt,
    runs (log (snd (ui H (mkInputs Pick1 (Some f) topic true)
                      (fresh env fs ds))))
      = [(AnAgent Data_Analyst, prompt)] /\
    PyStr.contains
      ("Dataset shape: " +:+ PyStr.of_nat (index_len df) +:+ " rows, "
       +:+ PyStr.of_nat (length (cols df)) +:+ " columns") prompt /\
    PyStr.contains
      ("Columns: " +:+ PyStr.join ", " (map label (cols df))) prompt /\
    PyStr.contains
      (PyStr.nl +:+ "## Correlation Matrix" +:+ PyStr.nl) prompt /\
    PyStr.contains topic prompt.
Proof.
  intros HC Hnd Hcols Htmp Hpath Hcsv Htopic.
  destruct (data_analyst_dispatch H f df topic env fs ds Htmp Hpath Hcsv Htopic)
    as (ctx & Hctx & Hruns & _).
  destruct (summary_ok H df topic (fresh env fs ds) HC Hnd Hcols)
    as (fr & stats & sample & section & _ & _ & _ & Hsection & Hsum).
  destruct (correlation_info_ok H df (fresh env fs ds) HC Hnd)
    as (section' & Hs' & Hmany & Hfew).
  assert (section' = section) by congruence. subst section'.
  rewrite Hctx in Hsum. inversion Hsum as [Hc]. clear Hsum.
  exists (enhanced_topic ctx topic). split; [exact Hruns |].
  destruct (enhanced_topic_parts ctx topic) as [Hin Ht].
  destruct (context_text_headings (shape_info df) (columns_info df)
              (dtypes_info H df) (missing_info H df) stats sample section topic)
    as (_ & _ & Hshape & Hsec).
  rewrite <- Hc in Hshape, Hsec.
  repeat split.
  - exact (contains_trans _ _ _ Hshape Hin).
  - refine (contains_trans _ _ _ _ Hin). rewrite Hc.
    apply context_text_columns.
  - refine (contains_trans _ _ _ _ (contains_trans _ _ _ Hsec Hin)).
    destruct (Nat.le_gt_cases 2 (length (DF.numerical_cols df))) as [Hn | Hn].
    + destruct (Hmany Hn) as (m & matrix & _ & _ & ->). apply contains_here.
    + rewrite (Hfew Hn). apply contains_here.
  - exact Ht.
Qed.


Lemma data_analyst_prompt_carries_summary_witness :
  let H := Plain.host (Ok (Some "answer")) in
  let f := mkUploadedFile "air.csv"
             ("city,pm10" +:+ PyStr.nl +:+ "Oslo,18" +:+ PyStr.nl) in
  let df := {| index_len := 1;
               cols := [mkColumn "city" ObjectT [str "Oslo"];
                        mkColumn "pm10" Int64 [Some (SInt 18)]] |} in
  read_csv (pandas H) (file_bytes f) = Ok df /\
  exists prompt,
    runs (log (snd (ui H (mkInputs Pick1 (Some f) "trends" true)
                      (fresh ∅ ∅ ∅))))
      = [(AnAgent Data_Analyst, prompt)] /\
    PyStr.contains
      ("Dataset shape: " +:+ PyStr.of_nat (index_len df) +:+ " rows, "
       +:+ PyStr.of_nat (length (cols df)) +:+ " columns") prompt /\
    PyStr.contains
      ("Columns: " +:+ PyStr.join ", " (map label (cols df))) prompt /\
    PyStr.contains
      (PyStr.nl +:+ "## Correlation Matrix" +:+ PyStr.nl) prompt /\
    PyStr.contains "trends" prompt.
Proof.
  split; [reflexivity |].
  assert (Hnd : DF.distinct_labels
                  {| index_len := 1;
                     cols := [mkColumn "city" ObjectT [str "Oslo"];
                              mkColumn "pm10" Int64 [Some (SInt 18)]] |}).
  { unfold DF.distinct_labels. cbn.
    repeat (constructor; [cbn; intuition discriminate |]). constructor. }
  assert (Hcols : cols {| index_len := 1;
                          cols := [mkColumn "city" ObjectT [str "Oslo"];
                                   mkColumn "pm10" Int64 [Some (SInt 18)]] |}
                  <> []) by discriminate.
  exact (data_analyst_prompt_carries_summary (Plain.host (Ok (Some "answer")))
           (mkUploadedFile "air.csv"
              ("city,pm10" +:+ PyStr.nl +:+ "Oslo,18" +:+ PyStr.nl))
           _ "trends" ∅ ∅ ∅ plain_contract Hnd Hcols
           eq_refl eq_refl eq_refl eq_refl).
Defined.

(** ** A valid upload *)

(** X12: an upload that is saved and parses to a frame with rows and columns is
    kept as [uploaded_file]; the bytes parsed are the ones just written to
    [tmp/<name>]; the user is shown the row and column counts, the path,
    and a preview of the first five rows with the column list, and no
    error. *)
Theorem valid_upload_is_previewed
    (H : Host) (picked_choice : choice) (f : UploadedFile) (df : DataFrame)
    (topic : string) (clicked : bool) (w : World) :
  os_fault H "tmp" = None ->
  os_fault H (path_join "tmp" (file_name f)) = None ->
  read_csv (pandas H) (file_bytes f) = Ok df ->
  DF.empty df = false ->
  exists w',
    upload_section H "Data Analyst"
      (mkInputs picked_choice (Some f) topic clicked) w = (Normal (Some f), w') /\
    files w' = <[path_join "tmp" (file_name f) := file_bytes f]> (files w) /\
    read_csv_path H (path_join "tmp" (file_name f)) w' = (Normal df, w') /\
    exists shown,
      log w' =
        (log w ++ shown
         ++ [StSuccess ("✅ Successfully uploaded CSV with "
                        +:+ PyStr.of_nat (index_len df) +:+ " rows and "
                        +:+ PyStr.of_nat (length (cols df)) +:+ " columns");
             StInfo ("📁 File saved as: " +:+ path_join "tmp" (file_name f));
             StExpander "📋 Data Preview";
             StDataframe (DF.head 5 df);
             StWrite ("**Columns:** " +:+ PyStr.join ", " (DF.columns df))])%list /\
      errors shown = [].
Proof.
  intros Htmp Hpath Hcsv Hempty.
  pose proof (no_columns_branch_is_dead df Hempty) as Hcols.
  exec. eexists. split; [reflexivity |]. cbn [files log].
  split; [reflexivity |]. split.
  { unfold read_csv_path. cbn [files]. rewrite lookup_insert_eq, Hcsv.
    reflexivity. }
  eexists [_; _; _]. rewrite <- !app_assoc. split; reflexivity.
Qed.

Lemma valid_upload_is_previewed_witness :
  let H := Plain.host (Ok None) in
  let f := mkUploadedFile "air.csv"
             ("city,pm10" +:+ PyStr.nl +:+ "Oslo,18" +:+ PyStr.nl) in
  let df := {| index_len := 1;
               cols := [mkColumn "city" ObjectT [str "Oslo"];
                        mkColumn "pm10" Int64 [Some (SInt 18)]] |} in
  let w := fresh ∅ {["tmp/air.csv" := "old"]} ∅ in
  read_csv (pandas H) (file_bytes f) = Ok df /\
  exists w',
    upload_section H "Data Analyst" (mkInputs Pick1 (Some f) "" false) w
      = (Normal (Some f), w') /\
    files w' = <[path_join "tmp" (file_name f) := file_bytes f]> (files w) /\
    read_csv_path H (path_join "tmp" (file_name f)) w' = (Normal df, w') /\
    exists shown,
      log w' =
        (log w ++ shown
         ++ [StSuccess ("✅ Successfully uploaded CSV with "
                        +:+ PyStr.of_nat (index_len df) +:+ " rows and "
                        +:+ PyStr.of_nat (length (cols df)) +:+ " columns");
             StInfo ("📁 File saved as: " +:+ path_join "tmp" (file_name f));
             StExpander "📋 Data Preview";
             StDataframe (DF.head 5 df);
             StWrite ("**Columns:** " +:+ PyStr.join ", " (DF.columns df))])%list /\
      errors shown = [].
Proof.
  split; [reflexivity |].
  exact (valid_upload_is_previewed (Plain.host (Ok None)) Pick1
           (mkUploadedFile "air.csv"
              ("city,pm10" +:+ PyStr.nl +:+ "Oslo,18" +:+ PyStr.nl))
           _ "" false (fresh ∅ {["tmp/air.csv" := "old"]} ∅)
           eq_refl eq_refl eq_refl eq_refl).
Defined.
